(** * AadharX QR scanner (scanner.js): extraction of the Aadhaar number and
      the scan session controller.

    The development embeds two parts of [scanner.js]:
    - [extractAadhaarNumber] with the four regular expressions of
      [aadhaarPatterns], run by a backtracking matcher that follows the
      ECMAScript matcher semantics (continuation passing, leftmost start
      index, greedy quantifiers);
    - the methods of [QRScanner] and [closeQRScanner], as transformers of an
      explicit world (scanner objects, page elements, window globals, timers,
      pending library promises and a trace of calls to the outside). *)

From Stdlib Require Import List NArith Arith Bool Lia String Ascii.
From Stdlib Require Import ZArith.
From Stdlib Require Decimal DecimalZ.
Import ListNotations.

(** ** JavaScript strings *)

Module JsString.

(** A JavaScript string is a sequence of UTF-16 code units. *)
Definition code_unit := N.
Definition jsstring := list code_unit.

(** A literal of the source, written as a Rocq string of ASCII characters. *)
Definition str (s : string) : jsstring :=
  List.map N_of_ascii (list_ascii_of_string s).

Definition cu_eqb (a b : code_unit) : bool := N.eqb a b.

Fixpoint jseqb (a b : jsstring) : bool :=
  match a, b with
  | [], [] => true
  | x :: a', y :: b' => cu_eqb x y && jseqb a' b'
  | _, _ => false
  end.

(** [\d] : the decimal digits 0-9. *)
Definition is_digit (c : code_unit) : bool :=
  (48 <=? c)%N && (c <=? 57)%N.

(** [\s] : WhiteSpace and LineTerminator code points of ECMAScript. *)
Definition is_space (c : code_unit) : bool :=
  ((9 <=? c)%N && (c <=? 13)%N)
  || (c =? 32)%N || (c =? 160)%N || (c =? 5760)%N
  || ((8192 <=? c)%N && (c <=? 8202)%N)
  || (c =? 8232)%N || (c =? 8233)%N || (c =? 8239)%N
  || (c =? 8287)%N || (c =? 12288)%N || (c =? 65279)%N.

(** Canonicalize of a regular expression without the [u] flag.  Without the
    [i] flag it is the identity.  With it, a code unit is replaced by its
    upper-case form, except that a code unit of 128 or more is never replaced
    by one below 128.  On the ASCII range this maps a-z to A-Z.  A code unit
    of 128 or more is kept as it is here: its canonical form is again 128 or
    more, and [aadhaarPatterns] compares canonical forms with ASCII
    characters and with the digits only, so the outcome is the same. *)
Definition canonicalize (ignoreCase : bool) (c : code_unit) : code_unit :=
  if ignoreCase && (97 <=? c)%N && (c <=? 122)%N then (c - 32)%N else c.

(** [s.includes(needle)] *)
Fixpoint starts_with (needle s : jsstring) : bool :=
  match needle, s with
  | [], _ => true
  | x :: n', y :: s' => cu_eqb x y && starts_with n' s'
  | _ :: _, [] => false
  end.

Fixpoint includes (s needle : jsstring) : bool :=
  starts_with needle s ||
  match s with
  | [] => false
  | _ :: s' => includes s' needle
  end.

(** A string is truthy when it is not empty. *)
Definition truthy (s : jsstring) : bool :=
  match s with [] => false | _ :: _ => true end.

End JsString.
Import JsString.

(** ** Regular expressions *)

Module Regex.

Inductive char_class := CDigit | CSpace | CNonDigit.

Definition class_mem (cl : char_class) (c : code_unit) : bool :=
  match cl with
  | CDigit => is_digit c
  | CSpace => is_space c
  | CNonDigit => negb (is_digit c)
  end.

(** The fragment of the pattern language that [scanner.js] uses. *)
Inductive regex :=
| REmpty                                (* the empty pattern *)
| RChar (c : code_unit)                 (* a literal character *)
| RClass (cl : char_class)              (* \d  \s  \D *)
| RSeq (r1 r2 : regex)                  (* r1 r2 *)
| ROpt (r : regex)                      (* r?  (greedy) *)
| RRep (n : nat) (r : regex)            (* r{n} *)
| RStar (r : regex)                     (* r*  (greedy) *)
| RGroup (r : regex)                    (* ( r ), the capture group 1 *)
| RBol                                  (* ^ *)
| REol.                                 (* $ *)

Definition RPlus (r : regex) : regex := RSeq r (RStar r).

(** A literal word. *)
Fixpoint lit (w : jsstring) : regex :=
  match w with
  | [] => REmpty
  | c :: w' => RSeq (RChar c) (lit w')
  end.

(** The state of a match in progress: the index reached, the input from
    that index on, and the text captured by group 1 so far. *)
Record mstate := mkM {
  pos : nat;
  rest : jsstring;
  cap : option jsstring
}.

Definition advance (st : mstate) (t : jsstring) : mstate :=
  mkM (S (pos st)) t (cap st).

(** The matcher of a pattern, in continuation-passing style: [rmatch ic r st k]
    tries [r] at [st] and hands every state it can reach to the continuation
    [k], in priority order, until [k] succeeds.  The classes [\d], [\s] and
    [\D] hold the code units that Canonicalize fixes, so a code unit belongs
    to one when its canonical form does. *)
Fixpoint rmatch (ic : bool) (r : regex) (st : mstate)
         (k : mstate -> option mstate) {struct r} : option mstate :=
  match r with
  | REmpty => k st
  | RChar c =>
      match rest st with
      | x :: t =>
          if cu_eqb (canonicalize ic c) (canonicalize ic x)
          then k (advance st t) else None
      | [] => None
      end
  | RClass cl =>
      match rest st with
      | x :: t =>
          if class_mem cl (canonicalize ic x)
          then k (advance st t) else None
      | [] => None
      end
  | RSeq r1 r2 => rmatch ic r1 st (fun st1 => rmatch ic r2 st1 k)
  | ROpt r1 =>
      match rmatch ic r1 st
              (fun st1 => if pos st1 =? pos st then None else k st1) with
      | Some m => Some m
      | None => k st
      end
  | RRep n r1 =>
      (fix rep (n : nat) (st : mstate) {struct n} : option mstate :=
         match n with
         | O => k st
         | S n' => rmatch ic r1 st (fun st1 => rep n' st1)
         end) n st
  | RStar r1 =>
      (fix star (fuel : nat) (st : mstate) {struct fuel} : option mstate :=
         match fuel with
         | O => k st
         | S fuel' =>
             match rmatch ic r1 st
                     (fun st1 => if pos st1 =? pos st then None
                                 else star fuel' st1) with
             | Some m => Some m
             | None => k st
             end
         end) (List.length (rest st)) st
  | RGroup r1 =>
      rmatch ic r1 st
        (fun st1 =>
           k (mkM (pos st1) (rest st1)
                  (Some (firstn (pos st1 - pos st) (rest st)))))
  | RBol => if pos st =? 0 then k st else None
  | REol => match rest st with [] => k st | _ :: _ => None end
  end.

(** The result of [String.prototype.match] for a pattern without the [g]
    flag: the index of the match, [match[0]] and [match[1]]. *)
Record match_result := mkMatch {
  index : nat;
  m0 : jsstring;
  m1 : option jsstring
}.

(** The search of the leftmost match: the pattern is tried at the index [i]
    (where the input that remains is [t]), then at every later index, the
    end of the input included. *)
Fixpoint search (ic : bool) (r : regex) (i : nat) (t : jsstring)
  : option match_result :=
  match rmatch ic r (mkM i t None) Some with
  | Some st => Some (mkMatch i (firstn (pos st - i) t) (cap st))
  | None =>
      match t with
      | [] => None
      | _ :: t' => search ic r (S i) t'
      end
  end.

(** A pattern with its flag. *)
Record pattern := mkPattern {
  ignoreCase : bool;
  body : regex
}.

(** [s.match(p)] *)
Definition js_match (s : jsstring) (p : pattern) : option match_result :=
  search (ignoreCase p) (body p) 0 s.

(** [p.test(s)] *)
Definition js_test (p : pattern) (s : jsstring) : bool :=
  match js_match s p with Some _ => true | None => false end.

(** [s.replace(/\D/g, '')] : every non-digit is removed. *)
Definition replace_nondigits (s : jsstring) : jsstring :=
  filter (fun c => negb (class_mem CNonDigit c)) s.

End Regex.
Import Regex.

(** ** QRScanner.extractAadhaarNumber *)

Definition digits (n : nat) : regex := RRep n (RClass CDigit).

(** A label followed by a group of 12 digits. *)
Definition labelled_pattern (w : jsstring) : regex :=
  RSeq (lit w) (RGroup (digits 12)).

(** /AADHAAR:(\d{12})/i *)
Definition pat_aadhaar : pattern :=
  mkPattern true (labelled_pattern (str "AADHAAR:")).

(** /UID:(\d{12})/i *)
Definition pat_uid : pattern :=
  mkPattern true (labelled_pattern (str "UID:")).

(** \d{4}\s?\d{4}\s?\d{4} *)
Definition grouped_body : regex :=
  RSeq (digits 4) (RSeq (ROpt (RClass CSpace))
       (RSeq (digits 4) (RSeq (ROpt (RClass CSpace)) (digits 4)))).

(** /(\d{4}\s?\d{4}\s?\d{4})/ *)
Definition pat_grouped : pattern :=
  mkPattern false (RGroup grouped_body).

(** /^(\d{12})$/ *)
Definition pat_plain : pattern :=
  mkPattern false (RSeq RBol (RSeq (RGroup (digits 12)) REol)).

Definition aadhaarPatterns : list pattern :=
  [pat_aadhaar; pat_uid; pat_grouped; pat_plain].

(** /^\d+$/ *)
Definition pat_all_digits : pattern :=
  mkPattern false (RSeq RBol (RSeq (RPlus (RClass CDigit)) REol)).

(** [match[1] || match[0]] *)
Definition captured (m : match_result) : jsstring :=
  match m1 m with
  | Some g => if truthy g then g else m0 m
  | None => m0 m
  end.

(** The body of the loop of [extractAadhaarNumber] for the patterns that
    remain to be tried. *)
Fixpoint extract_from (ps : list pattern) (qrText : jsstring)
  : option jsstring :=
  match ps with
  | [] => None
  | p :: ps' =>
      match js_match qrText p with
      | Some m =>
          let aadhaar := replace_nondigits (captured m) in
          if (List.length aadhaar =? 12) && js_test pat_all_digits aadhaar
          then Some aadhaar
          else extract_from ps' qrText
      | None => extract_from ps' qrText
      end
  end.

Definition extractAadhaarNumber (qrText : jsstring) : option jsstring :=
  extract_from aadhaarPatterns qrText.

(** ** The scan session: QRScanner objects, the page and the runtime *)

Module Session.

(** The fields of a [QRScanner] object.  [html5QrCode] is [true] when the
    field holds the Html5Qrcode object and [false] when it is null;
    [cameraStream] is null throughout the script. *)
Record QRScanner := mkScanner {
  html5QrCode : bool;
  cameraStream : option unit;
  scanTimer : option nat;
  scanning : bool;
  scanStartTime : option nat;
  cameraId : option jsstring
}.

(** [new QRScanner()] *)
Definition new_QRScanner : QRScanner :=
  mkScanner false None None false None None.

(** The page elements that the script writes, addressed by their id.  The
    elements are taken to exist, as the script itself takes them to. *)
Record Dom := mkDom {
  qrModal_display : jsstring;
  scanResult_display : jsstring;
  scannedData_text : jsstring;
  scannerError_display : jsstring;
  errorTitle_text : jsstring;
  errorMessage_text : jsstring;
  scannerStatus_html : jsstring
}.

(** How a promise of the Html5Qrcode library settles. *)
Inductive outcome :=
| Resolved
| Rejected (message : jsstring).

(** What is left to run of the async methods that wait for a promise, the
    innermost first. *)
Inductive frame :=
| K_stopCamera (this : nat)
    (* stopCamera, after [await this.html5QrCode.stop()] *)
| K_startCamera (this : nat)
    (* startCamera, after [await this.html5QrCode.start(...)] *)
| K_switch_stopped (this : nat) (newCameraId : jsstring)
    (* switchCamera, after [await this.stopCamera()] *)
| K_switch_started (this : nat).
    (* switchCamera, after [await this.startCamera(newCameraId)] *)

(** The callbacks handed to [setTimeout]. *)
Inductive timeout_cb :=
| T_status_scanning.   (* () => this.updateStatus('Scanning...', 'scanning') *)

(** Calls to the library and to the console, in the order they are made. *)
Inductive effect :=
| LibStart (this : nat) (cameraId : jsstring)
| LibStop (this : nat)
| ConsoleLog (label arg : jsstring)
| ConsoleError (label arg : jsstring).

Record World := mkWorld {
  objs : list QRScanner;               (* the QRScanner objects allocated *)
  qrScanner : option nat;              (* the global [qrScanner] *)
  page : Dom;
  scannedAadhaar : option jsstring;    (* window.scannedAadhaar *)
  scannedQRData : option jsstring;     (* window.scannedQRData *)
  intervals : list nat;                (* the interval timers that run *)
  timeouts : list (nat * (nat * timeout_cb));   (* id, delay, callback *)
  pending : list (nat * list frame);   (* the library promises awaited *)
  next_id : nat;
  clock : nat;                         (* Date.now() *)
  trace : list effect
}.

Definition with_objs (o : list QRScanner) (w : World) : World :=
  mkWorld o (qrScanner w) (page w) (scannedAadhaar w) (scannedQRData w)
          (intervals w) (timeouts w) (pending w) (next_id w) (clock w)
          (trace w).

Definition with_qrScanner (q : option nat) (w : World) : World :=
  mkWorld (objs w) q (page w) (scannedAadhaar w) (scannedQRData w)
          (intervals w) (timeouts w) (pending w) (next_id w) (clock w)
          (trace w).

Definition with_page (d : Dom) (w : World) : World :=
  mkWorld (objs w) (qrScanner w) d (scannedAadhaar w) (scannedQRData w)
          (intervals w) (timeouts w) (pending w) (next_id w) (clock w)
          (trace w).

Definition with_scanned (a q : option jsstring) (w : World) : World :=
  mkWorld (objs w) (qrScanner w) (page w) a q
          (intervals w) (timeouts w) (pending w) (next_id w) (clock w)
          (trace w).

Definition with_intervals (l : list nat) (w : World) : World :=
  mkWorld (objs w) (qrScanner w) (page w) (scannedAadhaar w)
          (scannedQRData w) l (timeouts w) (pending w) (next_id w) (clock w)
          (trace w).

Definition with_timeouts (l : list (nat * (nat * timeout_cb))) (w : World)
  : World :=
  mkWorld (objs w) (qrScanner w) (page w) (scannedAadhaar w)
          (scannedQRData w) (intervals w) l (pending w) (next_id w) (clock w)
          (trace w).

Definition with_pending (l : list (nat * list frame)) (w : World) : World :=
  mkWorld (objs w) (qrScanner w) (page w) (scannedAadhaar w)
          (scannedQRData w) (intervals w) (timeouts w) l (next_id w) (clock w)
          (trace w).

Definition with_next_id (n : nat) (w : World) : World :=
  mkWorld (objs w) (qrScanner w) (page w) (scannedAadhaar w)
          (scannedQRData w) (intervals w) (timeouts w) (pending w) n (clock w)
          (trace w).

Definition emit (e : effect) (w : World) : World :=
  mkWorld (objs w) (qrScanner w) (page w) (scannedAadhaar w)
          (scannedQRData w) (intervals w) (timeouts w) (pending w) (next_id w)
          (clock w) (trace w ++ [e]).

(** *** Objects *)

Definition obj (this : nat) (w : World) : QRScanner :=
  nth this (objs w) new_QRScanner.

Fixpoint list_update (n : nat) (f : QRScanner -> QRScanner)
         (l : list QRScanner) : list QRScanner :=
  match l, n with
  | [], _ => []
  | x :: l', O => f x :: l'
  | x :: l', S n' => x :: list_update n' f l'
  end.

Definition upd (this : nat) (f : QRScanner -> QRScanner) (w : World)
  : World :=
  with_objs (list_update this f (objs w)) w.

Definition set_html5QrCode (v : bool) (o : QRScanner) : QRScanner :=
  mkScanner v (cameraStream o) (scanTimer o) (scanning o) (scanStartTime o)
            (cameraId o).

Definition set_cameraStream (v : option unit) (o : QRScanner) : QRScanner :=
  mkScanner (html5QrCode o) v (scanTimer o) (scanning o) (scanStartTime o)
            (cameraId o).

Definition set_scanTimer (v : option nat) (o : QRScanner) : QRScanner :=
  mkScanner (html5QrCode o) (cameraStream o) v (scanning o) (scanStartTime o)
            (cameraId o).

Definition set_scanning (v : bool) (o : QRScanner) : QRScanner :=
  mkScanner (html5QrCode o) (cameraStream o) (scanTimer o) v (scanStartTime o)
            (cameraId o).

Definition set_scanStartTime (v : option nat) (o : QRScanner) : QRScanner :=
  mkScanner (html5QrCode o) (cameraStream o) (scanTimer o) (scanning o) v
            (cameraId o).

Definition set_cameraId (v : option jsstring) (o : QRScanner) : QRScanner :=
  mkScanner (html5QrCode o) (cameraStream o) (scanTimer o) (scanning o)
            (scanStartTime o) v.

(** *** The page *)

Definition quote : jsstring := [34%N].

Definition status_icon (type : jsstring) : jsstring :=
  if jseqb type (str "success") then str "fa-check-circle"
  else if jseqb type (str "error") then str "fa-exclamation-circle"
  else if jseqb type (str "warning") then str "fa-exclamation-triangle"
  else if jseqb type (str "loading") then str "fa-spinner fa-spin"
  else if jseqb type (str "scanning") then str "fa-search"
  else str "fa-camera".

Definition status_color (type : jsstring) : jsstring :=
  if jseqb type (str "success") then str "#10b981"
  else if jseqb type (str "error") then str "#ef4444"
  else if jseqb type (str "warning") then str "#f59e0b"
  else if jseqb type (str "loading") then str "#3b82f6"
  else if jseqb type (str "scanning") then str "#3b82f6"
  else str "white".

(** The text that [updateStatus(message, type)] writes in #scannerStatus. *)
Definition status_html (message type : jsstring) : jsstring :=
  str "<i class=" ++ quote ++ str "fas " ++ status_icon type ++ quote
  ++ str " style=" ++ quote ++ str "color: " ++ status_color type ++ quote
  ++ str "></i> " ++ message.

Definition set_status (h : jsstring) (d : Dom) : Dom :=
  mkDom (qrModal_display d) (scanResult_display d) (scannedData_text d)
        (scannerError_display d) (errorTitle_text d) (errorMessage_text d) h.

Definition updateStatus (message type : jsstring) (w : World) : World :=
  with_page (set_status (status_html message type) (page w)) w.

Definition showError (title message : jsstring) (w : World) : World :=
  let d := page w in
  updateStatus title (str "error")
    (with_page (mkDom (qrModal_display d) (scanResult_display d)
                      (scannedData_text d) (str "block") title message
                      (scannerStatus_html d)) w).

Definition hideError (w : World) : World :=
  let d := page w in
  with_page (mkDom (qrModal_display d) (scanResult_display d)
                   (scannedData_text d) (str "none") (errorTitle_text d)
                   (errorMessage_text d) (scannerStatus_html d)) w.

Definition showScanResult (aadhaarNumber rawData : jsstring) (w : World)
  : World :=
  let d := page w in
  let w1 :=
    with_page (mkDom (qrModal_display d) (str "block")
                     (str "Aadhaar: " ++ aadhaarNumber)
                     (scannerError_display d) (errorTitle_text d)
                     (errorMessage_text d) (scannerStatus_html d)) w in
  let w2 := with_scanned (Some aadhaarNumber) (Some rawData) w1 in
  updateStatus (str "QR Code found!") (str "success") w2.

(** *** Timers *)

(** [setInterval] hands out a fresh, positive timer id; the callback only
    writes the elapsed time in #scanTimer, which is tracked no further. *)
Definition startScanTimer (this : nat) (w : World) : World :=
  let id := S (next_id w) in
  let w1 := upd this (set_scanStartTime (Some (clock w))) w in
  let w2 := with_next_id id (with_intervals (intervals w1 ++ [id]) w1) in
  upd this (set_scanTimer (Some id)) w2.

Definition stopScanTimer (this : nat) (w : World) : World :=
  match scanTimer (obj this w) with
  | Some (S _ as id) =>
      let w1 :=
        with_intervals (filter (fun j => negb (j =? id)) (intervals w)) w in
      upd this (set_scanTimer None) w1
  | _ => w
  end.

Definition setTimeout (cb : timeout_cb) (delay : nat) (w : World) : World :=
  let id := S (next_id w) in
  with_next_id id (with_timeouts (timeouts w ++ [(id, (delay, cb))]) w).

(** *** Awaiting the library *)

(** The caller waits for a promise of the library: its frames are parked
    until the promise settles. *)
Definition await_lib (ks : list frame) (w : World) : World :=
  let id := S (next_id w) in
  with_next_id id (with_pending (pending w ++ [(id, ks)]) w).

(** The text of the TypeError that the engine raises when a method is called
    on null. *)
Definition null_call_message : jsstring :=
  str "Cannot read properties of null".

(** [startCamera(cameraId)] up to its await: the world reached, and whether
    the method is waiting for [html5QrCode.start] ([true]) or has returned
    ([false]). *)
Definition startCamera_begin (this : nat) (cameraId : jsstring) (w : World)
  : World * bool :=
  if negb (truthy cameraId) then (w, false)
  else
    let w1 := updateStatus (str "Starting camera...") (str "loading") w in
    if html5QrCode (obj this w1)
    then (emit (LibStart this cameraId) w1, true)
    else (showError (str "Camera Start Failed") null_call_message w1, false).

(** [stopCamera()] up to its await: [Some] when the method called
    [html5QrCode.stop()] and waits for it, [None] when it returned at once. *)
Definition stopCamera_begin (this : nat) (w : World) : option World :=
  if html5QrCode (obj this w) && scanning (obj this w)
  then Some (emit (LibStop this) w)
  else None.

(** The frames [ks] are resumed with the outcome [r] of what they waited
    for. *)
Fixpoint resume (ks : list frame) (r : outcome) (w : World) : World :=
  match ks with
  | [] => w
  | K_stopCamera this :: ks' =>
      let w' :=
        match r with
        | Resolved =>
            let w1 := upd this (set_scanning false) w in
            let w2 := stopScanTimer this w1 in
            updateStatus (str "Camera stopped") (str "info") w2
        | Rejected e =>
            emit (ConsoleError (str "Failed to stop camera:") e) w
        end in
      resume ks' Resolved w'
  | K_startCamera this :: ks' =>
      let w' :=
        match r with
        | Resolved =>
            let w1 := upd this (set_scanning true) w in
            let w2 := startScanTimer this w1 in
            updateStatus (str "Scanning...") (str "scanning") w2
        | Rejected e => showError (str "Camera Start Failed") e w
        end in
      resume ks' Resolved w'
  | K_switch_stopped this newCameraId :: ks' =>
      match r with
      | Rejected e =>
          resume ks' Resolved
                 (emit (ConsoleError (str "Failed to switch camera:") e) w)
      | Resolved =>
          let w1 := upd this (set_cameraId (Some newCameraId)) w in
          let (w2, waiting) := startCamera_begin this newCameraId w1 in
          if waiting
          then await_lib (K_startCamera this :: K_switch_started this :: ks')
                         w2
          else resume ks' Resolved w2
      end
  | K_switch_started this :: ks' =>
      match r with
      | Rejected e =>
          resume ks' Resolved
                 (emit (ConsoleError (str "Failed to switch camera:") e) w)
      | Resolved => resume ks' Resolved w
      end
  end.

(** The promise [id] of the library settles with [r]. *)
Fixpoint take_pending (id : nat) (l : list (nat * list frame))
  : option (list frame * list (nat * list frame)) :=
  match l with
  | [] => None
  | (j, ks) :: l' =>
      if j =? id then Some (ks, l')
      else match take_pending id l' with
           | Some (ks', l'') => Some (ks', (j, ks) :: l'')
           | None => None
           end
  end.

Definition settle (id : nat) (r : outcome) (w : World) : World :=
  match take_pending id (pending w) with
  | Some (ks, l) => resume ks r (with_pending l w)
  | None => w
  end.

(** *** The methods of QRScanner *)

Definition startCamera (this : nat) (cameraId : jsstring) (w : World)
  : World :=
  let (w1, waiting) := startCamera_begin this cameraId w in
  if waiting then await_lib [K_startCamera this] w1 else w1.

(** [startCamera()] : the argument defaults to [this.cameraId]. *)
Definition startCamera_default (this : nat) (w : World) : World :=
  match cameraId (obj this w) with
  | Some c => startCamera this c w
  | None => w
  end.

Definition stopCamera (this : nat) (w : World) : World :=
  match stopCamera_begin this w with
  | Some w1 => await_lib [K_stopCamera this] w1
  | None => w
  end.

Definition switchCamera (this : nat) (newCameraId : jsstring) (w : World)
  : World :=
  if negb (truthy newCameraId) || negb (scanning (obj this w)) then w
  else
    match stopCamera_begin this w with
    | Some w1 =>
        await_lib [K_stopCamera this; K_switch_stopped this newCameraId] w1
    | None => resume [K_switch_stopped this newCameraId] Resolved w
    end.

Definition onScanSuccess (this : nat) (decodedText : jsstring) (w : World)
  : World :=
  let w0 := emit (ConsoleLog (str "QR Code scanned:") decodedText) w in
  match extractAadhaarNumber decodedText with
  | Some ((_ :: _) as aadhaarNumber) =>
      let w1 := stopCamera this w0 in
      let w2 := stopScanTimer this w1 in
      showScanResult aadhaarNumber decodedText w2
  | _ =>
      let w1 :=
        showError (str "Invalid QR Code")
          (str "This QR code does not contain a valid Aadhaar number.") w0 in
      setTimeout T_status_scanning 2000 w1
  end.

Definition onScanError (this : nat) (errorMessage : jsstring) (w : World)
  : World :=
  if negb (scanning (obj this w)) then w
  else if includes errorMessage (str "NotFoundException")
          || includes errorMessage (str "NotReadableError")
       then updateStatus (str "No QR code detected") (str "warning") w
       else w.

Definition cleanup (this : nat) (w : World) : World :=
  let w1 := stopCamera this w in
  let w2 := stopScanTimer this w1 in
  let w3 := upd this (set_html5QrCode false) w2 in
  let w4 := upd this (set_cameraStream None) w3 in
  upd this (set_scanning false) w4.

(** *** The functions of the page *)

Definition ready_html : jsstring :=
  str "<i class=" ++ quote ++ str "fas fa-camera" ++ quote
  ++ str "></i> Ready to scan".

Definition closeQRScanner (w : World) : World :=
  let w1 :=
    match qrScanner w with
    | Some this => with_qrScanner None (cleanup this w)
    | None => w
    end in
  let d := page w1 in
  with_page (mkDom (str "none") (str "none") (scannedData_text d)
                   (str "none") (errorTitle_text d) (errorMessage_text d)
                   ready_html) w1.

(** *** Timeouts *)

Definition run_timeout (cb : timeout_cb) (w : World) : World :=
  match cb with
  | T_status_scanning => updateStatus (str "Scanning...") (str "scanning") w
  end.

Fixpoint take_timeout (id : nat) (l : list (nat * (nat * timeout_cb)))
  : option (timeout_cb * list (nat * (nat * timeout_cb))) :=
  match l with
  | [] => None
  | (j, (d, cb)) :: l' =>
      if j =? id then Some (cb, l')
      else match take_timeout id l' with
           | Some (cb', l'') => Some (cb', (j, (d, cb)) :: l'')
           | None => None
           end
  end.

(** The timeout [id] expires. *)
Definition fire_timeout (id : nat) (w : World) : World :=
  match take_timeout id (timeouts w) with
  | Some (cb, l) => run_timeout cb (with_timeouts l w)
  | None => w
  end.

(** *** Worlds used as examples *)

Definition blank_page : Dom :=
  mkDom (str "flex") (str "none") [] (str "none") [] [] ready_html.

(** One scanner, initialised ([html5QrCode] set, a camera chosen), before
    its camera starts. *)
Definition ready_world (cam : jsstring) : World :=
  mkWorld [mkScanner true None None false None (Some cam)] (Some 0)
          blank_page None None [] [] [] 0 0 [].

(** The same scanner once [startCamera()] has run and the library has
    started the camera. *)
Definition scanning_world (cam : jsstring) : World :=
  settle 1 Resolved (startCamera_default 0 (ready_world cam)).

End Session.
Import Session.

(** ** The timer display, the camera list and the uploaded image *)

Module Page.

(** *** The elapsed time shown by the interval timer *)

Fixpoint uint_chars (d : Decimal.uint) : jsstring :=
  match d with
  | Decimal.Nil => []
  | Decimal.D0 d' => 48%N :: uint_chars d'
  | Decimal.D1 d' => 49%N :: uint_chars d'
  | Decimal.D2 d' => 50%N :: uint_chars d'
  | Decimal.D3 d' => 51%N :: uint_chars d'
  | Decimal.D4 d' => 52%N :: uint_chars d'
  | Decimal.D5 d' => 53%N :: uint_chars d'
  | Decimal.D6 d' => 54%N :: uint_chars d'
  | Decimal.D7 d' => 55%N :: uint_chars d'
  | Decimal.D8 d' => 56%N :: uint_chars d'
  | Decimal.D9 d' => 57%N :: uint_chars d'
  end.

(** [String(z)] for an integer [z]: its decimal digits, after a minus sign
    when it is negative. *)
Definition js_String (z : Z) : jsstring :=
  match Z.to_int z with
  | Decimal.Pos d => uint_chars d
  | Decimal.Neg d => 45%N :: uint_chars d
  end.

(** [s.padStart(n, c)] for a filler [c] of one character. *)
Definition padStart (n : nat) (c : code_unit) (s : jsstring) : jsstring :=
  repeat c (n - List.length s) ++ s.

(** The text that the callback of [startScanTimer] writes in #scanTimer, from
    [Date.now()] and [this.scanStartTime] (integers, in milliseconds):
    [Math.floor] of a quotient is the floor division, [%] is the remainder
    that takes the sign of the dividend. *)
Definition timer_display (now scanStartTime : Z) : jsstring :=
  let elapsed := (now - scanStartTime)%Z in
  let seconds := (elapsed / 1000)%Z in
  padStart 2 48%N (js_String (seconds / 60)%Z)
  ++ str ":"
  ++ padStart 2 48%N (js_String (Z.rem seconds 60)).

(** *** The list of cameras *)

(** [c.toLowerCase()] for one code unit.  The upper-case letters A-Z, the
    Kelvin sign (k) and the dotted capital I (i, then a combining dot) are
    the code units whose lower-case form holds an ASCII letter; the
    lower-case form of any other code unit holds none, and the code unit is
    kept as it is here, which makes no difference to a search for ASCII
    letters. *)
Definition lower_cu (c : code_unit) : jsstring :=
  if (65 <=? c)%N && (c <=? 90)%N then [(c + 32)%N]
  else if (c =? 304)%N then [105%N; 775%N]
  else if (c =? 8490)%N then [107%N]
  else [c].

Definition toLowerCase (s : jsstring) : jsstring := flat_map lower_cu s.

(** A camera as [Html5Qrcode.getCameras()] lists it. *)
Record Device := mkDevice {
  device_id : jsstring;
  device_label : jsstring
}.

(** What the promise of [Html5Qrcode.getCameras()] settles with: a list of
    devices (or nothing), or a rejection. *)
Inductive cameras_outcome :=
| Cameras (devices : option (list Device))
| CamerasRejected (message : jsstring).

(** The element #cameraSelect: its options (value and text) and its
    value. *)
Record Select := mkSelect {
  sel_options : list (jsstring * jsstring);
  sel_value : jsstring
}.

(** [select.value = v] selects the first option whose value is [v]; with no
    such option the value of the select is empty. *)
Definition set_select_value (v : jsstring) (sel : Select) : Select :=
  mkSelect (sel_options sel)
           (if existsb (fun o => jseqb (fst o) v) (sel_options sel)
            then v else []).

(** [d => d.label.toLowerCase().includes('back')] *)
Definition is_back (d : Device) : bool :=
  includes (toLowerCase (device_label d)) (str "back").

(** [device.label || `Camera ${index + 1}`] *)
Definition option_text (d : Device) (index : nat) : jsstring :=
  if truthy (device_label d) then device_label d
  else str "Camera " ++ js_String (Z.of_nat index + 1).

(** The options that the [forEach] of [loadCameras] appends, for the devices
    from the index [index] on. *)
Fixpoint camera_options (devices : list Device) (index : nat)
  : list (jsstring * jsstring) :=
  match devices with
  | [] => []
  | d :: ds =>
      (device_id d, option_text d index) :: camera_options ds (S index)
  end.

(** [backCamera ? backCamera.id : devices[0].id], for a list that starts
    with [first]. *)
Definition choose_camera (first : Device) (devices : list Device)
  : jsstring :=
  match find is_back devices with
  | Some backCamera => device_id backCamera
  | None => device_id first
  end.

Definition camera_error_message : jsstring :=
  str "No camera detected. Please check permissions or connect a camera.".

(** [loadCameras()] once the promise of [getCameras()] has settled with
    [r]. *)
Definition loadCameras (this : nat) (r : cameras_outcome) (sel : Select)
           (w : World) : Select * World :=
  match r with
  | CamerasRejected _ =>
      (sel, showError (str "Camera Error") camera_error_message w)
  | Cameras devices =>
      match devices with
      | Some ((first :: _) as ds) =>
          let sel1 := mkSelect (camera_options ds 0) [] in
          let cam := choose_camera first ds in
          let w1 := upd this (set_cameraId (Some cam)) w in
          (set_select_value cam sel1, startCamera_default this w1)
      | _ =>
          (mkSelect [] [],
           showError (str "Camera Error") camera_error_message w)
      end
  end.

(** What [new Html5Qrcode("qrReader")] does. *)
Inductive construction :=
| Constructed
| Threw (message : jsstring).

(** [initialize()] up to [await this.loadCameras()]: the world reached, and
    [None] when the method waits for the cameras or [Some false] when it has
    returned. *)
Definition initialize_begin (ctor : construction) (this : nat) (w : World)
  : World * option bool :=
  match ctor with
  | Constructed => (upd this (set_html5QrCode true) w, None)
  | Threw e =>
      (showError (str "Initialization Failed")
                 (str "Failed to initialize QR scanner: " ++ e) w,
       Some false)
  end.

(** [initialize()] once [loadCameras()] has run with the outcome [r] of
    [getCameras()]: the select, the world and the value returned.  The
    listener that the method adds to #cameraSelect is not tracked. *)
Definition initialize_resume (this : nat) (r : cameras_outcome)
           (sel : Select) (w : World) : Select * World * bool :=
  let (sel1, w1) := loadCameras this r sel w in
  (sel1, updateStatus (str "Ready to scan") (str "info") w1, true).

(** [retryCamera()], with the outcome [r] of the [getCameras()] that its
    [loadCameras()] waits for. *)
Definition retryCamera (r : cameras_outcome) (sel : Select) (w : World)
  : Select * World :=
  match qrScanner w with
  | Some this => loadCameras this r sel (hideError w)
  | None => (sel, w)
  end.

(** *** The uploaded image *)

(** The change of #qrImageUpload with a file: the status line, when there
    is a scanner. *)
Definition onFileChosen (w : World) : World :=
  match qrScanner w with
  | Some _ => updateStatus (str "Processing image...") (str "loading") w
  | None => w
  end.

(** The body of [img.onload] from the result of [jsQR] on: [Some data] for
    a code, [None] for no code (a failure of the canvas calls that come
    before is not covered).  Every branch calls a method of the global
    [qrScanner]; when the global is null the call raises a TypeError, the
    [catch] raises another one, and nothing is left of the upload ([None]). *)
Definition onImageLoaded (code : option jsstring) (w : World)
  : option World :=
  match qrScanner w with
  | None => None
  | Some _ =>
      match code with
      | Some data =>
          match extractAadhaarNumber data with
          | Some ((_ :: _) as aadhaarNumber) =>
              let w1 := with_scanned (Some aadhaarNumber) (Some data) w in
              Some (showScanResult aadhaarNumber data w1)
          | _ =>
              Some (showError (str "Invalid QR Code")
                      (str "The uploaded image does not contain a valid Aadhaar QR code.")
                      w)
          end
      | None =>
          Some (showError (str "No QR Code Found")
                  (str "No QR code detected in the uploaded image.") w)
      end
  end.

End Page.
Import Page.

(** ** Notions used to state the properties *)

(** The number of decimal digits of a string, that is the length of what
    is left of it once every non-digit is removed. *)
Definition count_digits (s : jsstring) : nat :=
  List.length (filter is_digit s).

(** The least number of decimal digits that a match of a pattern consumes. *)
Fixpoint min_digits (r : regex) : nat :=
  match r with
  | RClass CDigit => 1
  | RSeq r1 r2 => min_digits r1 + min_digits r2
  | RRep n r1 => n * min_digits r1
  | RGroup r1 => min_digits r1
  | _ => 0
  end.

(** [drop_digits n t] is what follows the first [n] code units of [t], when
    there are that many and they are all decimal digits. *)
Fixpoint drop_digits (n : nat) (t : jsstring) : option jsstring :=
  match n with
  | O => Some t
  | S n' =>
      match t with
      | x :: t' => if is_digit x then drop_digits n' t' else None
      | [] => None
      end
  end.

(** [strip_label ic w t] is what follows the word [w] at the head of [t],
    letters compared up to case when [ic] is set. *)
Fixpoint strip_label (ic : bool) (w t : jsstring) : option jsstring :=
  match w with
  | [] => Some t
  | c :: w' =>
      match t with
      | x :: t' =>
          if cu_eqb (canonicalize ic c) (canonicalize ic x)
          then strip_label ic w' t' else None
      | [] => None
      end
  end.

(** Two words that are equal up to the case of their letters. *)
Definition same_label (w lab : jsstring) : bool :=
  match strip_label true w lab with
  | Some [] => true
  | _ => false
  end.

(** The label [w] stands at the head of [t], followed by 12 digits. *)
Definition labelled_at (w t : jsstring) : bool :=
  match strip_label true w t with
  | Some t1 => match drop_digits 12 t1 with Some _ => true | None => false end
  | None => false
  end.

(** The label [w] followed by 12 digits starts at one of the first [m]
    indices of [s]. *)
Definition labelled_before (w s : jsstring) (m : nat) : bool :=
  existsb (fun n => labelled_at w (skipn n s)) (seq 0 m).

Definition all_digits (s : jsstring) : bool := forallb is_digit s.
Definition all_spaces (s : jsstring) : bool := forallb is_space s.

(** A decimal digit or a white space. *)
Definition digit_or_space (x : code_unit) : bool := is_digit x || is_space x.

(** [\s?] in front of a digit: one white space is passed, if there is one. *)
Definition skip_space (t : jsstring) : nat * jsstring :=
  match t with
  | x :: t' => if is_space x then (1, t') else (0, t)
  | [] => (0, t)
  end.

(** What [\d{4}\s?\d{4}\s?\d{4}] matches at the head of [t]: the length of
    the match and the text that follows it. *)
Definition grouped_at (t : jsstring) : option (nat * jsstring) :=
  match drop_digits 4 t with
  | None => None
  | Some t1 =>
      let (n1, t2) := skip_space t1 in
      match drop_digits 4 t2 with
      | None => None
      | Some t3 =>
          let (n2, t4) := skip_space t3 in
          match drop_digits 4 t4 with
          | None => None
          | Some t5 => Some (n2 + (n1 + 12), t5)
          end
      end
  end.

(** *** Notions of the session *)

(** Two worlds that differ in the status line at most. *)
Definition same_but_status (w w' : World) : Prop :=
  w' = with_page (set_status (scannerStatus_html (page w')) (page w)) w.

(** The per-frame error of the decoder that finds no symbol. *)
Definition transient_miss (errorMessage : jsstring) : bool :=
  includes errorMessage (str "NotFoundException").

Definition no_code_html : jsstring :=
  status_html (str "No QR code detected") (str "warning").

(** The error callbacks of a run of frames, delivered one after the other. *)
Definition onScanErrors (this : nat) (msgs : list jsstring) (w : World)
  : World :=
  fold_left (fun w' m => onScanError this m w') msgs w.

(** The title and the message shown for a text without a valid number. *)
Definition invalid_title : jsstring := str "Invalid QR Code".
Definition invalid_message : jsstring :=
  str "This QR code does not contain a valid Aadhaar number.".

(** Every promise that is awaited has an id handed out before. *)
Definition fresh_ids (w : World) : bool :=
  forallb (fun p => fst p <=? next_id w) (pending w).

(** The world when [stopCamera] has seen its stop resolve. *)
Definition stopped (this : nat) (w : World) : World :=
  updateStatus (str "Camera stopped") (str "info")
    (stopScanTimer this (upd this (set_scanning false) w)).

(** The two decimal digits of a number below 100, tens first. *)
Definition two_digits (n : Z) : jsstring :=
  [Z.to_N (48 + n / 10); Z.to_N (48 + n mod 10)].

(** No device of a list is a back camera. *)
Definition no_back (devices : list Device) : bool :=
  forallb (fun d => negb (is_back d)) devices.

(** [getCameras()] gave no camera: it was rejected, or it resolved with
    nothing or with an empty list. *)
Definition no_camera (r : cameras_outcome) : bool :=
  match r with
  | CamerasRejected _ => true
  | Cameras None => true
  | Cameras (Some []) => true
  | Cameras (Some (_ :: _)) => false
  end.

(** What [jsQR] found holds no valid number: no code, or a code whose text
    [extractAadhaarNumber] turns down. *)
Definition no_valid_code (code : option jsstring) : bool :=
  match code with
  | None => true
  | Some data =>
      match extractAadhaarNumber data with
      | Some _ => false
      | None => true
      end
  end.

(** ** Code units *)

(** Boolean comparisons of code units, turned into arithmetic. *)
Ltac cu_arith H :=
  repeat first
    [ rewrite orb_true_iff in H | rewrite andb_true_iff in H
    | rewrite orb_false_iff in H | rewrite andb_false_iff in H
    | rewrite negb_true_iff in H | rewrite negb_false_iff in H
    | rewrite N.leb_le in H | rewrite N.leb_gt in H
    | rewrite N.eqb_eq in H | rewrite N.eqb_neq in H ].

Ltac cu_false :=
  match goal with
  | |- ?b = false =>
      let E := fresh "E" in
      destruct b eqn:E; [exfalso; cu_arith E | reflexivity]
  end.

Lemma canonicalize_cases (ic : bool) (x : code_unit) :
  (canonicalize ic x = x /\ (ic = false \/ x < 97 \/ 122 < x)%N)
  \/ (canonicalize ic x = x - 32 /\ 97 <= x <= 122)%N.
Proof.
  unfold canonicalize.
  destruct ic; simpl; [|left; split; [reflexivity | left; reflexivity]].
  destruct (N.leb_spec 97 x); simpl;
    [|left; split; [reflexivity | right; left; assumption]].
  destruct (N.leb_spec x 122); simpl;
    [right; split; [reflexivity | lia]
    |left; split; [reflexivity | right; right; assumption]].
Qed.

Lemma is_digit_canonicalize (ic : bool) (x : code_unit) :
  is_digit (canonicalize ic x) = is_digit x.
Proof.
  destruct (canonicalize_cases ic x) as [[-> _] | [-> Hx]]; [reflexivity|].
  unfold is_digit.
  replace (x <=? 57)%N with false by (symmetry; apply N.leb_gt; lia).
  replace (x - 32 <=? 57)%N with false by (symmetry; apply N.leb_gt; lia).
  now rewrite !andb_false_r.
Qed.

Lemma is_space_not_digit (x : code_unit) :
  is_space x = true -> is_digit x = false.
Proof.
  unfold is_space, is_digit. intros H. cu_arith H. cu_false. lia.
Qed.

(** A decimal digit is none of the letters A-Z, whatever the case. *)
Lemma digit_not_letter (ic : bool) (c x : code_unit) :
  (65 <= c <= 90)%N -> is_digit x = true ->
  cu_eqb (canonicalize ic c) (canonicalize ic x) = false.
Proof.
  unfold cu_eqb, is_digit. intros Hc H. cu_arith H.
  apply N.eqb_neq.
  destruct (canonicalize_cases ic c) as [[-> _] | [-> ?]];
    destruct (canonicalize_cases ic x) as [[-> _] | [-> ?]]; lia.
Qed.

Lemma space_not_letter (ic : bool) (c x : code_unit) :
  (65 <= c <= 90)%N -> is_space x = true ->
  cu_eqb (canonicalize ic c) (canonicalize ic x) = false.
Proof.
  unfold cu_eqb, is_space. intros Hc H. cu_arith H.
  apply N.eqb_neq.
  destruct (canonicalize_cases ic c) as [[-> _] | [-> ?]];
    destruct (canonicalize_cases ic x) as [[-> _] | [-> ?]]; lia.
Qed.

(** ** The matcher *)

Lemma count_digits_cons (x : code_unit) (t : jsstring) :
  count_digits (x :: t) = (if is_digit x then 1 else 0) + count_digits t.
Proof.
  unfold count_digits. simpl. destruct (is_digit x); reflexivity.
Qed.

Lemma count_digits_app (a b : jsstring) :
  count_digits (a ++ b) = count_digits a + count_digits b.
Proof.
  unfold count_digits. now rewrite filter_app, length_app.
Qed.

Lemma count_digits_all (a : jsstring) :
  all_digits a = true -> count_digits a = List.length a.
Proof.
  unfold count_digits, all_digits.
  induction a as [|x a IH]; simpl; [reflexivity|].
  intros H. apply andb_true_iff in H as [Hx Ha].
  rewrite Hx. simpl. now rewrite IH.
Qed.

Lemma count_digits_spaces (a : jsstring) :
  all_spaces a = true -> count_digits a = 0.
Proof.
  unfold count_digits, all_spaces.
  induction a as [|x a IH]; simpl; [reflexivity|].
  intros H. apply andb_true_iff in H as [Hx Ha].
  rewrite (is_space_not_digit _ Hx). now apply IH.
Qed.

(** Whatever a pattern matches, the continuation is entered at a state that
    lies at least [min_digits] digits further in the input. *)
Lemma rmatch_min_digits (ic : bool) (r : regex) :
  forall st k res,
    rmatch ic r st k = Some res ->
    exists st1,
      k st1 = Some res
      /\ min_digits r + count_digits (rest st1) <= count_digits (rest st).
Proof.
  induction r as [ | c | cl | r1 IH1 r2 IH2 | r1 IH1 | n r1 IH1 | r1 IH1
                   | r1 IH1 | | ]; intros st k res H.
  - exists st. split; [exact H | simpl; lia].
  - simpl in H. destruct (rest st) as [|x t] eqn:Hr; [discriminate|].
    destruct (cu_eqb _ _); [|discriminate].
    exists (advance st t). split; [exact H|].
    simpl. rewrite count_digits_cons. lia.
  - simpl in H. destruct (rest st) as [|x t] eqn:Hr; [discriminate|].
    destruct (class_mem cl (canonicalize ic x)) eqn:Hm; [|discriminate].
    exists (advance st t). split; [exact H|].
    rewrite count_digits_cons.
    destruct cl; simpl in *; try lia.
    rewrite is_digit_canonicalize in Hm. rewrite Hm. lia.
  - simpl in H. apply IH1 in H as (st1 & H & L1).
    apply IH2 in H as (st2 & H & L2).
    exists st2. split; [exact H | simpl; lia].
  - simpl in H.
    destruct (rmatch ic r1 st _) as [m|] eqn:Hm.
    + injection H as ->. apply IH1 in Hm as (st1 & Hk & L1).
      destruct (pos st1 =? pos st); [discriminate|].
      exists st1. split; [exact Hk | simpl; lia].
    + exists st. split; [exact H | simpl; lia].
  - revert st H. induction n as [|n IHn]; intros st H.
    + exists st. split; [exact H | simpl; lia].
    + simpl in H. apply IH1 in H as (st1 & H & L1).
      apply IHn in H as (st2 & H & L2).
      exists st2. split; [exact H|]. simpl in *. lia.
  - simpl in H. revert H. generalize (List.length (rest st)) as fuel.
    intros fuel. revert st. induction fuel as [|fuel IHf]; intros st H.
    + exists st. split; [exact H | simpl; lia].
    + destruct (rmatch ic r1 st _) as [m|] eqn:Hm.
      * injection H as ->. apply IH1 in Hm as (st1 & Hk & L1).
        destruct (pos st1 =? pos st); [discriminate|].
        apply IHf in Hk as (st2 & Hk & L2).
        exists st2. split; [exact Hk | simpl in *; lia].
      * exists st. split; [exact H | simpl; lia].
  - simpl in H. apply IH1 in H as (st1 & H & L1).
    eexists. split; [exact H | simpl in *; lia].
  - simpl in H. destruct (pos st =? 0); [|discriminate].
    exists st. split; [exact H | simpl; lia].
  - simpl in H. destruct (rest st) eqn:Hr; [|discriminate].
    exists st. split; [exact H | rewrite Hr; simpl; lia].
Qed.

(** A pattern finds no match in an input with too few digits. *)
Lemma search_few_digits (ic : bool) (r : regex) :
  forall t i, count_digits t < min_digits r -> search ic r i t = None.
Proof.
  induction t as [|x t IH]; intros i Hc; simpl.
  - destruct (rmatch ic r (mkM i [] None) Some) eqn:Hm; [|reflexivity].
    apply rmatch_min_digits in Hm as (st1 & _ & L). simpl in L. lia.
  - destruct (rmatch ic r (mkM i (x :: t) None) Some) eqn:Hm.
    + apply rmatch_min_digits in Hm as (st1 & _ & L). simpl in L. lia.
    + apply IH. rewrite count_digits_cons in Hc. lia.
Qed.

(** The search goes past an index where the pattern does not match. *)
Lemma search_step (ic : bool) (r : regex) (i : nat) (x : code_unit)
      (t : jsstring) :
  rmatch ic r (mkM i (x :: t) None) Some = None ->
  search ic r i (x :: t) = search ic r (S i) t.
Proof.
  intros H. simpl. now rewrite H.
Qed.

Lemma search_skip (ic : bool) (r : regex) :
  forall pre i t,
    (forall n, n < List.length pre ->
               rmatch ic r (mkM (i + n) (skipn n (pre ++ t)) None) Some
               = None) ->
    search ic r i (pre ++ t) = search ic r (i + List.length pre) t.
Proof.
  induction pre as [|x pre IH]; intros i t H; simpl.
  - now rewrite Nat.add_0_r.
  - pose proof (H 0 ltac:(simpl; lia)) as H0.
    rewrite Nat.add_0_r in H0. simpl in H0. rewrite H0.
    rewrite IH; [f_equal; lia|].
    intros n Hn. specialize (H (S n) ltac:(simpl; lia)).
    simpl in H. rewrite <- H. f_equal. f_equal. lia.
Qed.

(** The matcher of a literal word. *)
Lemma rmatch_lit (ic : bool) (w : jsstring) :
  forall p t c k,
    rmatch ic (lit w) (mkM p t c) k
    = match strip_label ic w t with
      | Some t1 => k (mkM (List.length w + p) t1 c)
      | None => None
      end.
Proof.
  induction w as [|a w IH]; intros p t c k; simpl; [reflexivity|].
  destruct t as [|x t]; [reflexivity|].
  destruct (cu_eqb _ _); [|reflexivity].
  unfold advance. simpl. rewrite IH.
  destruct (strip_label ic w t); [|reflexivity].
  f_equal. f_equal. lia.
Qed.

(** The matcher of [\d{n}]. *)
Lemma rmatch_digits (ic : bool) (n : nat) :
  forall p t c k,
    rmatch ic (digits n) (mkM p t c) k
    = match drop_digits n t with
      | Some t1 => k (mkM (n + p) t1 c)
      | None => None
      end.
Proof.
  unfold digits. induction n as [|n IH]; intros p t c k; [reflexivity|].
  simpl. destruct t as [|x t]; [reflexivity|].
  rewrite is_digit_canonicalize.
  destruct (is_digit x); [|reflexivity].
  unfold advance. simpl in *. rewrite IH.
  destruct (drop_digits n t); [|reflexivity].
  f_equal. f_equal. lia.
Qed.

(** The matcher of [\s?] outside of a case-insensitive pattern. *)
Lemma rmatch_opt_space (p : nat) (t : jsstring) (c : option jsstring)
      (k : mstate -> option mstate) :
  rmatch false (ROpt (RClass CSpace)) (mkM p t c) k
  = match t with
    | x :: t' =>
        if is_space x
        then match k (mkM (S p) t' c) with
             | Some m => Some m
             | None => k (mkM p t c)
             end
        else k (mkM p t c)
    | [] => k (mkM p t c)
    end.
Proof.
  simpl. destruct t as [|x t']; [reflexivity|].
  unfold canonicalize. simpl.
  destruct (is_space x); [|reflexivity].
  change (match p with 0 => false | S m' => p =? m' end) with (S p =? p).
  replace (S p =? p) with false; [reflexivity|].
  symmetry. apply Nat.eqb_neq. lia.
Qed.

Lemma drop_digits_app (g t : jsstring) :
  all_digits g = true -> drop_digits (List.length g) (g ++ t) = Some t.
Proof.
  unfold all_digits. induction g as [|x g IH]; simpl; [reflexivity|].
  intros H. apply andb_true_iff in H as [-> Hg]. now apply IH.
Qed.

Lemma drop_digits_nondigit (n : nat) (x : code_unit) (t : jsstring) :
  is_digit x = false -> drop_digits (S n) (x :: t) = None.
Proof.
  intros H. simpl. now rewrite H.
Qed.

Lemma firstn_length_app (a b : jsstring) :
  firstn (List.length a) (a ++ b) = a.
Proof.
  induction a as [|x a IH]; simpl; [reflexivity | now rewrite IH].
Qed.

(** ** extractAadhaarNumber *)

Lemma replace_nondigits_all_digits (s : jsstring) :
  all_digits (replace_nondigits s) = true.
Proof.
  unfold all_digits, replace_nondigits. apply forallb_forall.
  intros x Hx. apply filter_In in Hx as [_ Hx]. simpl in Hx.
  now rewrite negb_involutive in Hx.
Qed.

Lemma replace_nondigits_eq (s : jsstring) :
  replace_nondigits s = filter is_digit s.
Proof.
  unfold replace_nondigits. apply filter_ext. intros x. simpl.
  apply negb_involutive.
Qed.

Lemma replace_nondigits_length (s : jsstring) :
  List.length (replace_nondigits s) = count_digits s.
Proof.
  now rewrite replace_nondigits_eq.
Qed.

(** What the loop returns has passed the check of the loop. *)
Lemma extract_from_valid (ps : list pattern) (qrText a : jsstring) :
  extract_from ps qrText = Some a ->
  List.length a = 12 /\ all_digits a = true.
Proof.
  induction ps as [|p ps IH]; simpl; [discriminate|].
  destruct (js_match qrText p) as [m|]; [|exact IH].
  destruct (List.length (replace_nondigits (captured m)) =? 12) eqn:Hl;
    simpl; [|exact IH].
  destruct (js_test pat_all_digits _); [|exact IH].
  intros H. injection H as <-. split.
  - now apply Nat.eqb_eq.
  - apply replace_nondigits_all_digits.
Qed.

(** No pattern of a list matches: the loop returns null. *)
Lemma extract_from_no_match (ps : list pattern) (qrText : jsstring) :
  (forall p, In p ps -> js_match qrText p = None) ->
  extract_from ps qrText = None.
Proof.
  induction ps as [|p ps IH]; intros H; simpl; [reflexivity|].
  rewrite (H p (or_introl eq_refl)).
  apply IH. intros q Hq. apply H. now right.
Qed.

Lemma aadhaarPatterns_min_digits (p : pattern) :
  In p aadhaarPatterns -> min_digits (body p) = 12.
Proof.
  unfold aadhaarPatterns. simpl.
  intros [<- | [<- | [<- | [<- | []]]]]; reflexivity.
Qed.

(** C4.  Whatever the decoded text, [extractAadhaarNumber] returns null or
    an identity number: a string of exactly 12 characters, every one of them
    a decimal digit. *)
Theorem extractAadhaarNumber_identity_number (qrText a : jsstring) :
  extractAadhaarNumber qrText = Some a ->
  List.length a = 12 /\ all_digits a = true.
Proof.
  apply extract_from_valid.
Qed.

Lemma extractAadhaarNumber_identity_number_witness :
  extractAadhaarNumber (str "AADHAAR:123456789012|TYPE:MEDICAL")
  = Some (str "123456789012")
  /\ List.length (str "123456789012") = 12
  /\ all_digits (str "123456789012") = true.
Proof.
  split; [reflexivity|].
  apply (@extractAadhaarNumber_identity_number
           (str "AADHAAR:123456789012|TYPE:MEDICAL")).
  reflexivity.
Defined.

(** C1, as the code has it.  A text with fewer than 12 decimal digits yields
    nothing: every pattern needs 12 digits of the text. *)
Theorem extract_fewer_than_12_digits (qrText : jsstring) :
  count_digits qrText < 12 -> extractAadhaarNumber qrText = None.
Proof.
  intros H. apply extract_from_no_match. intros p Hp.
  unfold js_match. apply search_few_digits.
  now rewrite (aadhaarPatterns_min_digits _ Hp).
Qed.

Lemma extract_fewer_than_12_digits_witness :
  count_digits (str "12345") < 12
  /\ extractAadhaarNumber (str "12345") = None.
Proof.
  split; [vm_compute; lia|].
  apply (@extract_fewer_than_12_digits (str "12345")). vm_compute. lia.
Defined.

(** C1, as stated, fails: a text of 13 digits has more than 12 digits left
    once its non-digits are removed, holds a run of more than 12 digits, and
    yet its first 12 digits are returned (the grouped pattern is searched
    anywhere in the text). *)
Lemma extract_more_than_12_digits :
  12 < List.length (replace_nondigits (str "1234567890123"))
  /\ extractAadhaarNumber (str "1234567890123") = Some (str "123456789012").
Proof.
  split; [vm_compute; lia | reflexivity].
Qed.

(** *** The labelled patterns on a text without letters *)

Lemma digit_or_space_not_letter (ic : bool) (c x : code_unit) :
  (65 <= c <= 90)%N -> digit_or_space x = true ->
  cu_eqb (canonicalize ic c) (canonicalize ic x) = false.
Proof.
  intros Hc H. apply orb_true_iff in H as [H | H].
  - now apply digit_not_letter.
  - now apply space_not_letter.
Qed.

(** A pattern that starts with a letter finds nothing in a text made of
    digits and white space. *)
Lemma search_no_letter (ic : bool) (c : code_unit) (w : jsstring)
      (r : regex) :
  (65 <= c <= 90)%N ->
  forall t i,
    forallb digit_or_space t = true ->
    search ic (RSeq (lit (c :: w)) r) i t = None.
Proof.
  intros Hc. induction t as [|x t IH]; intros i H; [reflexivity|].
  simpl in H. apply andb_true_iff in H as [Hx Ht].
  rewrite search_step; [now apply IH|].
  simpl. now rewrite (digit_or_space_not_letter ic c x Hc Hx).
Qed.

Lemma forallb_digits_or_space (g : jsstring) :
  all_digits g = true -> forallb digit_or_space g = true.
Proof.
  unfold all_digits. rewrite !forallb_forall. intros H x Hx.
  unfold digit_or_space. now rewrite (H x Hx).
Qed.

Lemma forallb_spaces_or_digit (g : jsstring) :
  all_spaces g = true -> forallb digit_or_space g = true.
Proof.
  unfold all_spaces. rewrite !forallb_forall. intros H x Hx.
  unfold digit_or_space. rewrite (H x Hx). apply orb_true_r.
Qed.

(** *** The grouped pattern *)

(** [\s?] followed by a pattern that cannot start on a white space. *)
Lemma rmatch_opt_space_then (r : regex) (p : nat) (t : jsstring)
      (c : option jsstring) (k : mstate -> option mstate) :
  (forall q x u, is_space x = true ->
                 rmatch false r (mkM q (x :: u) c) k = None) ->
  rmatch false (RSeq (ROpt (RClass CSpace)) r) (mkM p t c) k
  = rmatch false r (mkM (fst (skip_space t) + p) (snd (skip_space t)) c) k.
Proof.
  intros Hr.
  change (rmatch false (RSeq (ROpt (RClass CSpace)) r) (mkM p t c) k)
    with (rmatch false (ROpt (RClass CSpace)) (mkM p t c)
                 (fun st1 => rmatch false r st1 k)).
  rewrite rmatch_opt_space. unfold skip_space.
  destruct t as [|x t']; [reflexivity|].
  destruct (is_space x) eqn:Hx; [|reflexivity].
  rewrite (Hr p x t' Hx). simpl.
  now destruct (rmatch false r _ k).
Qed.

Lemma rmatch_grouped_body (p : nat) (t : jsstring) (c : option jsstring)
      (k : mstate -> option mstate) :
  rmatch false grouped_body (mkM p t c) k
  = match grouped_at t with
    | Some (n, t') => k (mkM (n + p) t' c)
    | None => None
    end.
Proof.
  unfold grouped_body, grouped_at.
  change (rmatch false (RSeq (digits 4) ?r) ?st ?k0)
    with (rmatch false (digits 4) st (fun st1 => rmatch false r st1 k0)).
  rewrite rmatch_digits.
  destruct (drop_digits 4 t) as [t1|]; [|reflexivity].
  rewrite rmatch_opt_space_then.
  2:{ intros q x u Hx.
      change (rmatch false (RSeq (digits 4) ?r) ?st ?k0)
        with (rmatch false (digits 4) st (fun st1 => rmatch false r st1 k0)).
      rewrite rmatch_digits, drop_digits_nondigit; [reflexivity|].
      now apply is_space_not_digit. }
  destruct (skip_space t1) as [n1 t2]. simpl fst. simpl snd.
  change (rmatch false (RSeq (digits 4) ?r) ?st ?k0)
    with (rmatch false (digits 4) st (fun st1 => rmatch false r st1 k0)).
  rewrite rmatch_digits.
  destruct (drop_digits 4 t2) as [t3|]; [|reflexivity].
  rewrite rmatch_opt_space_then.
  2:{ intros q x u Hx.
      rewrite rmatch_digits, drop_digits_nondigit; [reflexivity|].
      now apply is_space_not_digit. }
  destruct (skip_space t3) as [n2 t4]. simpl fst. simpl snd.
  rewrite rmatch_digits.
  destruct (drop_digits 4 t4) as [t5|]; [|reflexivity].
  f_equal. f_equal. lia.
Qed.

(** The grouped pattern, tried at one index. *)
Lemma rmatch_pat_grouped (i : nat) (t : jsstring) :
  rmatch false (body pat_grouped) (mkM i t None) Some
  = match grouped_at t with
    | Some (n, t') => Some (mkM (n + i) t' (Some (firstn n t)))
    | None => None
    end.
Proof.
  change (body pat_grouped) with (RGroup grouped_body).
  change (rmatch false (RGroup grouped_body) (mkM i t None) Some)
    with (rmatch false grouped_body (mkM i t None)
            (fun st1 => Some (mkM (pos st1) (rest st1)
                                  (Some (firstn (pos st1 - i) t))))).
  rewrite rmatch_grouped_body.
  destruct (grouped_at t) as [[n t']|]; [|reflexivity].
  cbn [pos rest]. now replace (n + i - i) with n by lia.
Qed.

(** The plain pattern, tried at the index 0. *)
Lemma rmatch_pat_plain (t : jsstring) :
  rmatch false (body pat_plain) (mkM 0 t None) Some
  = match drop_digits 12 t with
    | Some [] => Some (mkM 12 [] (Some (firstn 12 t)))
    | _ => None
    end.
Proof.
  change (rmatch false (body pat_plain) (mkM 0 t None) Some)
    with (rmatch false (digits 12) (mkM 0 t None)
            (fun st1 => rmatch false REol
                          (mkM (pos st1) (rest st1)
                               (Some (firstn (pos st1 - 0) t))) Some)).
  rewrite rmatch_digits.
  destruct (drop_digits 12 t) as [[|x u]|]; reflexivity.
Qed.

Lemma search_here (ic : bool) (r : regex) (i : nat) (t : jsstring)
      (st : mstate) :
  rmatch ic r (mkM i t None) Some = Some st ->
  search ic r i t = Some (mkMatch i (firstn (pos st - i) t) (cap st)).
Proof.
  intros H. destruct t; simpl; now rewrite H.
Qed.

Lemma drop_digits_app_more (g t : jsstring) (m : nat) :
  all_digits g = true ->
  drop_digits (List.length g + m) (g ++ t) = drop_digits m t.
Proof.
  unfold all_digits. induction g as [|x g IH]; simpl; [reflexivity|].
  intros H. apply andb_true_iff in H as [-> Hg]. now apply IH.
Qed.

Lemma drop_digits_4_app (g t : jsstring) :
  List.length g = 4 -> all_digits g = true ->
  drop_digits 4 (g ++ t) = Some t.
Proof.
  intros <- H. now apply drop_digits_app.
Qed.

Lemma skip_space_digits (g t : jsstring) :
  List.length g = 4 -> all_digits g = true ->
  skip_space (g ++ t) = (0, g ++ t).
Proof.
  destruct g as [|x g]; [discriminate|]. intros _ H.
  simpl in H. apply andb_true_iff in H as [Hx _].
  simpl. destruct (is_space x) eqn:Hs; [|reflexivity].
  apply is_space_not_digit in Hs. congruence.
Qed.

(** *** The check of the cleaned number *)

Lemma rmatch_star_digit_cons (p : nat) (x : code_unit) (t : jsstring)
      (c : option jsstring) (k : mstate -> option mstate) :
  is_digit x = true ->
  rmatch false (RStar (RClass CDigit)) (mkM p (x :: t) c) k
  = match rmatch false (RStar (RClass CDigit)) (mkM (S p) t c) k with
    | Some m => Some m
    | None => k (mkM p (x :: t) c)
    end.
Proof.
  intros H. simpl. unfold canonicalize. simpl. rewrite H.
  change (match p with 0 => false | S m' => p =? m' end) with (S p =? p).
  replace (S p =? p) with false; [reflexivity|].
  symmetry. apply Nat.eqb_neq. lia.
Qed.

(** [\d*] is greedy: on a run of digits that ends the input it hands the end
    of the input to its continuation first. *)
Lemma rmatch_star_digits (c : option jsstring)
      (k : mstate -> option mstate) (res : mstate) :
  forall t p,
    all_digits t = true ->
    k (mkM (List.length t + p) [] c) = Some res ->
    rmatch false (RStar (RClass CDigit)) (mkM p t c) k = Some res.
Proof.
  induction t as [|x t IH]; intros p Ht Hk; [exact Hk|].
  unfold all_digits in Ht. simpl in Ht.
  apply andb_true_iff in Ht as [Hx Ht].
  rewrite rmatch_star_digit_cons by exact Hx.
  rewrite (IH (S p) Ht); [reflexivity|].
  rewrite <- Hk. f_equal. f_equal. simpl. lia.
Qed.

(** /^\d+$/ accepts every non-empty string of digits. *)
Lemma test_all_digits (a : jsstring) :
  a <> [] -> all_digits a = true -> js_test pat_all_digits a = true.
Proof.
  intros Hne Ha. destruct a as [|x a]; [congruence|].
  unfold all_digits in Ha. simpl in Ha.
  apply andb_true_iff in Ha as [Hx Ha].
  unfold js_test, js_match.
  assert (H : rmatch false (body pat_all_digits) (mkM 0 (x :: a) None) Some
              = Some (mkM (List.length a + 1) [] None)).
  { change (rmatch false (body pat_all_digits) (mkM 0 (x :: a) None) Some)
      with (if is_digit (canonicalize false x)
            then rmatch false (RStar (RClass CDigit)) (mkM 1 a None)
                        (fun st2 => rmatch false REol st2 Some)
            else None).
    rewrite is_digit_canonicalize, Hx.
    now apply rmatch_star_digits. }
  change (ignoreCase pat_all_digits) with false.
  now rewrite (search_here _ _ _ _ _ H).
Qed.

(** A text whose cleaned capture has 12 digits passes the check. *)
Lemma extract_from_accepts (p : pattern) (ps : list pattern)
      (qrText : jsstring) (m : match_result) :
  js_match qrText p = Some m ->
  count_digits (captured m) = 12 ->
  extract_from (p :: ps) qrText = Some (filter is_digit (captured m)).
Proof.
  intros Hm Hc. simpl. rewrite Hm.
  rewrite replace_nondigits_length, Hc. simpl.
  rewrite test_all_digits.
  - now rewrite replace_nondigits_eq.
  - intros E. apply (f_equal (@List.length _)) in E.
    rewrite replace_nondigits_length, Hc in E. discriminate.
  - apply replace_nondigits_all_digits.
Qed.

Lemma extract_from_skip (p : pattern) (ps : list pattern)
      (qrText : jsstring) :
  js_match qrText p = None ->
  extract_from (p :: ps) qrText = extract_from ps qrText.
Proof.
  intros H. simpl. now rewrite H.
Qed.

Lemma filter_all_digits (g : jsstring) :
  all_digits g = true -> filter is_digit g = g.
Proof.
  unfold all_digits. induction g as [|x g IH]; simpl; [reflexivity|].
  intros H. apply andb_true_iff in H as [-> Hg]. now rewrite IH.
Qed.

Lemma filter_all_spaces (g : jsstring) :
  all_spaces g = true -> filter is_digit g = [].
Proof.
  unfold all_spaces. induction g as [|x g IH]; simpl; [reflexivity|].
  intros H. apply andb_true_iff in H as [Hx Hg].
  rewrite (is_space_not_digit _ Hx). now apply IH.
Qed.

(** Three groups of four digits, each gap empty or one white space. *)
Lemma grouped_at_groups (g1 g2 g3 sep1 sep2 : jsstring) :
  List.length g1 = 4 -> List.length g2 = 4 -> List.length g3 = 4 ->
  all_digits g1 = true -> all_digits g2 = true -> all_digits g3 = true ->
  all_spaces sep1 = true -> all_spaces sep2 = true ->
  List.length sep1 <= 1 -> List.length sep2 <= 1 ->
  grouped_at (g1 ++ sep1 ++ g2 ++ sep2 ++ g3)
  = Some (List.length (g1 ++ sep1 ++ g2 ++ sep2 ++ g3), []).
Proof.
  intros L1 L2 L3 D1 D2 D3 S1 S2 B1 B2. unfold grouped_at.
  rewrite (drop_digits_4_app _ _ L1 D1).
  assert (E1 : skip_space (sep1 ++ g2 ++ sep2 ++ g3)
               = (List.length sep1, g2 ++ sep2 ++ g3)).
  { destruct sep1 as [|w [|w' sep1]]; [ | | simpl in B1; lia].
    - simpl. now apply skip_space_digits.
    - unfold all_spaces in S1. simpl in S1.
      apply andb_true_iff in S1 as [Hw _]. simpl. now rewrite Hw. }
  rewrite E1, (drop_digits_4_app _ _ L2 D2).
  assert (E2 : skip_space (sep2 ++ g3) = (List.length sep2, g3)).
  { destruct sep2 as [|w [|w' sep2]]; [ | | simpl in B2; lia].
    - simpl. rewrite <- (app_nil_r g3) at 1.
      rewrite skip_space_digits; auto. now rewrite app_nil_r.
    - unfold all_spaces in S2. simpl in S2.
      apply andb_true_iff in S2 as [Hw _]. simpl. now rewrite Hw. }
  rewrite E2. rewrite <- (app_nil_r g3) at 1.
  rewrite (drop_digits_4_app _ _ L3 D3).
  rewrite !length_app, L1, L2, L3. f_equal. f_equal. lia.
Qed.

Lemma single_space_cases (sep : jsstring) :
  sep = [] \/ sep = str " " ->
  all_spaces sep = true /\ List.length sep <= 1.
Proof.
  intros [-> | ->]; split; simpl; (reflexivity || lia).
Qed.

(** The grouped form, as the loop of [extractAadhaarNumber] treats it. *)
Lemma extract_groups (g1 g2 g3 sep1 sep2 : jsstring) :
  List.length g1 = 4 -> List.length g2 = 4 -> List.length g3 = 4 ->
  all_digits g1 = true -> all_digits g2 = true -> all_digits g3 = true ->
  all_spaces sep1 = true -> all_spaces sep2 = true ->
  List.length sep1 <= 1 -> List.length sep2 <= 1 ->
  extractAadhaarNumber (g1 ++ sep1 ++ g2 ++ sep2 ++ g3)
  = Some (g1 ++ g2 ++ g3).
Proof.
  intros L1 L2 L3 D1 D2 D3 S1 S2 B1 B2.
  set (s := g1 ++ sep1 ++ g2 ++ sep2 ++ g3).
  assert (Hs : forallb digit_or_space s = true).
  { unfold s. rewrite !forallb_app.
    rewrite (forallb_digits_or_space _ D1), (forallb_digits_or_space _ D2),
      (forallb_digits_or_space _ D3), (forallb_spaces_or_digit _ S1),
      (forallb_spaces_or_digit _ S2). reflexivity. }
  assert (Hf : filter is_digit s = g1 ++ g2 ++ g3).
  { unfold s. rewrite !filter_app.
    rewrite (filter_all_digits _ D1), (filter_all_digits _ D2),
      (filter_all_digits _ D3), (filter_all_spaces _ S1),
      (filter_all_spaces _ S2). reflexivity. }
  unfold extractAadhaarNumber, aadhaarPatterns.
  rewrite extract_from_skip.
  2:{ apply (search_no_letter true 65%N (str "ADHAAR:")); [lia | exact Hs]. }
  rewrite extract_from_skip.
  2:{ apply (search_no_letter true 85%N (str "ID:")); [lia | exact Hs]. }
  assert (Hm : js_match s pat_grouped = Some (mkMatch 0 s (Some s))).
  { unfold js_match. simpl ignoreCase.
    assert (H : rmatch false (body pat_grouped) (mkM 0 s None) Some
                = Some (mkM (List.length s + 0) [] (Some s))).
    { rewrite rmatch_pat_grouped. unfold s at 1.
      rewrite grouped_at_groups; auto. fold s. now rewrite firstn_all. }
    rewrite (search_here _ _ _ _ _ H). simpl pos. simpl cap.
    now rewrite Nat.add_0_r, Nat.sub_0_r, firstn_all. }
  rewrite (extract_from_accepts _ _ _ _ Hm).
  - unfold captured. simpl m1.
    destruct s eqn:Es; simpl; [|now rewrite <- Hf].
    apply (f_equal (@List.length _)) in Hf. simpl in Hf.
    rewrite !length_app in Hf. lia.
  - assert (Hc : captured (mkMatch 0 s (Some s)) = s).
    { unfold captured. simpl. now destruct s. }
    rewrite Hc. unfold count_digits. rewrite Hf, !length_app. lia.
Qed.

Lemma all_digits_split (n : nat) (s : jsstring) :
  all_digits s = true ->
  all_digits (firstn n s) = true /\ all_digits (skipn n s) = true.
Proof.
  intros H. rewrite <- (firstn_skipn n s) in H.
  unfold all_digits in *. rewrite forallb_app in H.
  now apply andb_true_iff in H.
Qed.

(** C3.  Three groups of four digits, set side by side or separated by
    single spaces, yield the 12 digits of the groups; in particular a string
    of exactly 12 digits is returned as it is, and "1234 5678 9012" yields
    "123456789012". *)
Theorem extract_three_groups :
  (forall g1 g2 g3 sep1 sep2 : jsstring,
      List.length g1 = 4 -> List.length g2 = 4 -> List.length g3 = 4 ->
      all_digits g1 = true -> all_digits g2 = true -> all_digits g3 = true ->
      sep1 = [] \/ sep1 = str " " ->
      sep2 = [] \/ sep2 = str " " ->
      extractAadhaarNumber (g1 ++ sep1 ++ g2 ++ sep2 ++ g3)
      = Some (g1 ++ g2 ++ g3))
  /\ (forall s : jsstring,
         List.length s = 12 -> all_digits s = true ->
         extractAadhaarNumber s = Some s)
  /\ extractAadhaarNumber (str "1234 5678 9012") = Some (str "123456789012").
Proof.
  split; [|split].
  - intros g1 g2 g3 sep1 sep2 L1 L2 L3 D1 D2 D3 H1 H2.
    apply single_space_cases in H1 as [S1 B1].
    apply single_space_cases in H2 as [S2 B2].
    now apply extract_groups.
  - intros s L D.
    destruct (all_digits_split 4 s D) as [D1 D23].
    destruct (all_digits_split 4 (skipn 4 s) D23) as [D2 D3].
    remember (firstn 4 s) as g1 eqn:E1.
    remember (firstn 4 (skipn 4 s)) as g2 eqn:E2.
    remember (skipn 4 (skipn 4 s)) as g3 eqn:E3.
    assert (E : g1 ++ g2 ++ g3 = s).
    { subst g1 g2 g3. now rewrite !firstn_skipn. }
    pose proof (extract_groups g1 g2 g3 [] []) as H.
    simpl app in H. rewrite E in H. apply H; try reflexivity.
    + subst g1. rewrite length_firstn. lia.
    + subst g2. rewrite length_firstn, length_skipn. lia.
    + subst g3. rewrite !length_skipn. lia.
    + exact D1.
    + exact D2.
    + exact D3.
    + simpl. lia.
    + simpl. lia.
  - reflexivity.
Qed.

Lemma extract_three_groups_witness :
  extractAadhaarNumber (str "1234" ++ str " " ++ str "5678" ++ [] ++ str "9012")
  = Some (str "1234" ++ str "5678" ++ str "9012").
Proof.
  apply (proj1 extract_three_groups
               (str "1234") (str "5678") (str "9012") (str " ") []);
    try reflexivity; (now left) || (now right).
Defined.

(** *** Gaps of two white spaces or more *)

Lemma drop_digits_space (n : nat) (w : code_unit) (t : jsstring) :
  is_space w = true -> drop_digits (S n) (w :: t) = None.
Proof.
  intros H. apply drop_digits_nondigit. now apply is_space_not_digit.
Qed.

Lemma all_spaces_cons (w : code_unit) (t : jsstring) :
  all_spaces (w :: t) = true -> is_space w = true /\ all_spaces t = true.
Proof.
  unfold all_spaces. simpl. apply andb_true_iff.
Qed.

(** A gap of two white spaces or more stops the grouped pattern. *)
Lemma skip_wide_gap (sep t : jsstring) :
  all_spaces sep = true -> 2 <= List.length sep ->
  drop_digits 4 (snd (skip_space (sep ++ t))) = None.
Proof.
  intros S B. destruct sep as [|w1 [|w2 sep]]; simpl in B; try lia.
  apply all_spaces_cons in S as [H1 S].
  apply all_spaces_cons in S as [H2 _].
  simpl app. unfold skip_space. rewrite H1. simpl snd.
  now apply drop_digits_space.
Qed.

Lemma skip_narrow_gap (sep g t : jsstring) :
  all_spaces sep = true -> List.length sep <= 1 ->
  List.length g = 4 -> all_digits g = true ->
  snd (skip_space (sep ++ g ++ t)) = g ++ t.
Proof.
  intros S B L D. destruct sep as [|w [|w' sep]]; simpl in B; try lia.
  - simpl app. now rewrite skip_space_digits.
  - apply all_spaces_cons in S as [H1 _]. simpl. now rewrite H1.
Qed.

Lemma grouped_at_wide_gap (g1 g2 g3 sep1 sep2 : jsstring) :
  List.length g1 = 4 -> List.length g2 = 4 ->
  all_digits g1 = true -> all_digits g2 = true ->
  all_spaces sep1 = true -> all_spaces sep2 = true ->
  2 <= List.length sep1 \/ 2 <= List.length sep2 ->
  grouped_at (g1 ++ sep1 ++ g2 ++ sep2 ++ g3) = None.
Proof.
  intros L1 L2 D1 D2 S1 S2 B. unfold grouped_at.
  rewrite (drop_digits_4_app _ _ L1 D1).
  destruct (le_lt_dec 2 (List.length sep1)) as [B1 | B1].
  - pose proof (skip_wide_gap sep1 (g2 ++ sep2 ++ g3) S1 B1) as H.
    destruct (skip_space (sep1 ++ g2 ++ sep2 ++ g3)) as [n1 t2].
    cbn [snd] in H. now rewrite H.
  - assert (B2 : 2 <= List.length sep2) by lia.
    pose proof (skip_narrow_gap sep1 g2 (sep2 ++ g3) S1 ltac:(lia) L2 D2)
      as H.
    destruct (skip_space (sep1 ++ g2 ++ sep2 ++ g3)) as [n1 t2].
    cbn [snd] in H. subst t2. rewrite (drop_digits_4_app _ _ L2 D2).
    pose proof (skip_wide_gap sep2 g3 S2 B2) as H.
    destruct (skip_space (sep2 ++ g3)) as [n2 t4].
    cbn [snd] in H. now rewrite H.
Qed.

(** With a gap between the groups, the first 12 code units are not all
    digits. *)
Lemma drop_digits_12_gap (g1 g2 g3 sep1 sep2 : jsstring) :
  List.length g1 = 4 -> List.length g2 = 4 ->
  all_digits g1 = true -> all_digits g2 = true ->
  all_spaces sep1 = true -> all_spaces sep2 = true ->
  2 <= List.length sep1 \/ 2 <= List.length sep2 ->
  drop_digits 12 (g1 ++ sep1 ++ g2 ++ sep2 ++ g3) = None.
Proof.
  intros L1 L2 D1 D2 S1 S2 B.
  change 12 with (4 + 8). rewrite <- L1 at 1.
  rewrite (drop_digits_app_more _ _ _ D1).
  destruct sep1 as [|w sep1].
  - simpl app. change 8 with (4 + 4). rewrite <- L2 at 1.
    rewrite (drop_digits_app_more _ _ _ D2).
    destruct sep2 as [|w sep2]; [simpl in B; lia|].
    apply all_spaces_cons in S2 as [Hw _]. now apply drop_digits_space.
  - apply all_spaces_cons in S1 as [Hw _]. now apply drop_digits_space.
Qed.

(** C10.  When two neighbouring groups of a grouped text are two white
    spaces or more apart, nothing is extracted, although the text holds
    exactly 12 digits once its non-digits are removed. *)
Theorem extract_wide_gap (g1 g2 g3 sep1 sep2 : jsstring) :
  List.length g1 = 4 -> List.length g2 = 4 -> List.length g3 = 4 ->
  all_digits g1 = true -> all_digits g2 = true -> all_digits g3 = true ->
  all_spaces sep1 = true -> all_spaces sep2 = true ->
  2 <= List.length sep1 \/ 2 <= List.length sep2 ->
  List.length (replace_nondigits (g1 ++ sep1 ++ g2 ++ sep2 ++ g3)) = 12
  /\ extractAadhaarNumber (g1 ++ sep1 ++ g2 ++ sep2 ++ g3) = None.
Proof.
  intros L1 L2 L3 D1 D2 D3 S1 S2 B.
  set (s := g1 ++ sep1 ++ g2 ++ sep2 ++ g3).
  assert (Hs : forallb digit_or_space s = true).
  { unfold s. rewrite !forallb_app.
    rewrite (forallb_digits_or_space _ D1), (forallb_digits_or_space _ D2),
      (forallb_digits_or_space _ D3), (forallb_spaces_or_digit _ S1),
      (forallb_spaces_or_digit _ S2). reflexivity. }
  assert (Hc : count_digits s = 12).
  { unfold s. rewrite !count_digits_app.
    rewrite (count_digits_all _ D1), (count_digits_all _ D2),
      (count_digits_all _ D3), (count_digits_spaces _ S1),
      (count_digits_spaces _ S2). lia. }
  split; [now rewrite replace_nondigits_length|].
  assert (Hg : grouped_at s = None) by now apply grouped_at_wide_gap.
  assert (Hp : drop_digits 12 s = None) by now apply drop_digits_12_gap.
  assert (Hd : exists a t, s = a :: t /\ count_digits t < 12).
  { unfold s in *. destruct g1 as [|a g1]; [discriminate|].
    exists a, (g1 ++ sep1 ++ g2 ++ sep2 ++ g3). split; [reflexivity|].
    simpl app in Hc. rewrite count_digits_cons in Hc.
    unfold all_digits in D1. simpl in D1.
    apply andb_true_iff in D1 as [Ha _]. rewrite Ha in Hc. lia. }
  destruct Hd as (a & t & Es & Ht). clearbody s.
  apply extract_from_no_match. intros p Hp'. unfold js_match.
  simpl in Hp'. destruct Hp' as [<- | [<- | [<- | [<- | []]]]].
  - apply (search_no_letter true 65%N (str "ADHAAR:")); [lia | exact Hs].
  - apply (search_no_letter true 85%N (str "ID:")); [lia | exact Hs].
  - simpl ignoreCase. subst s. rewrite search_step.
    + now apply search_few_digits.
    + now rewrite rmatch_pat_grouped, Hg.
  - simpl ignoreCase. subst s. rewrite search_step.
    + now apply search_few_digits.
    + now rewrite rmatch_pat_plain, Hp.
Qed.

Lemma extract_wide_gap_witness :
  List.length (replace_nondigits (str "1234  5678 9012")) = 12
  /\ extractAadhaarNumber (str "1234  5678 9012") = None.
Proof.
  apply (extract_wide_gap (str "1234") (str "5678") (str "9012")
                          (str "  ") (str " "));
    try reflexivity.
  left. simpl. lia.
Defined.

(** *** The labelled patterns *)

(** A labelled pattern, tried at one index. *)
Lemma rmatch_labelled (w : jsstring) (i : nat) (t : jsstring) :
  rmatch true (labelled_pattern w) (mkM i t None) Some
  = match strip_label true w t with
    | Some t1 =>
        match drop_digits 12 t1 with
        | Some t2 =>
            Some (mkM (12 + (List.length w + i)) t2 (Some (firstn 12 t1)))
        | None => None
        end
    | None => None
    end.
Proof.
  change (rmatch true (labelled_pattern w) (mkM i t None) Some)
    with (rmatch true (lit w) (mkM i t None)
            (fun st1 => rmatch true (RGroup (digits 12)) st1 Some)).
  rewrite rmatch_lit.
  destruct (strip_label true w t) as [t1|]; [|reflexivity].
  change (rmatch true (RGroup (digits 12))
                 (mkM (List.length w + i) t1 None) Some)
    with (rmatch true (digits 12) (mkM (List.length w + i) t1 None)
            (fun st1 =>
               Some (mkM (pos st1) (rest st1)
                         (Some (firstn (pos st1 - (List.length w + i))
                                       t1))))).
  rewrite rmatch_digits.
  destruct (drop_digits 12 t1) as [t2|]; [|reflexivity].
  cbn [pos rest].
  now replace (12 + (List.length w + i) - (List.length w + i)) with 12
    by lia.
Qed.

Lemma rmatch_unlabelled (w : jsstring) (i : nat) (t : jsstring) :
  labelled_at w t = false ->
  rmatch true (labelled_pattern w) (mkM i t None) Some = None.
Proof.
  unfold labelled_at. rewrite rmatch_labelled.
  destruct (strip_label true w t) as [t1|]; [|reflexivity].
  now destruct (drop_digits 12 t1).
Qed.

Lemma labelled_before_spec (w s : jsstring) (m n : nat) :
  labelled_before w s m = false -> n < m ->
  labelled_at w (skipn n s) = false.
Proof.
  unfold labelled_before. intros H Hn.
  destruct (labelled_at w (skipn n s)) eqn:E; [|reflexivity].
  rewrite <- H. symmetry. apply existsb_exists.
  exists n. split; [|exact E]. apply in_seq. lia.
Qed.

(** The search passes the indices where the label does not stand. *)
Lemma search_labelled_skip (w pre t : jsstring) :
  labelled_before w (pre ++ t) (List.length pre) = false ->
  search true (labelled_pattern w) 0 (pre ++ t)
  = search true (labelled_pattern w) (List.length pre) t.
Proof.
  intros H. rewrite search_skip; [reflexivity|].
  intros n Hn. apply rmatch_unlabelled.
  now apply (labelled_before_spec _ _ _ _ H).
Qed.

Lemma search_nil (ic : bool) (r : regex) (i : nat) :
  search ic r i []
  = match rmatch ic r (mkM i [] None) Some with
    | Some st => Some (mkMatch i [] (cap st))
    | None => None
    end.
Proof.
  simpl. destruct (rmatch ic r _ Some) as [st|]; [|reflexivity].
  now rewrite firstn_nil.
Qed.

(** Without a labelled number, a labelled pattern finds nothing. *)
Lemma search_unlabelled (w s : jsstring) :
  labelled_before w s (S (List.length s)) = false ->
  search true (labelled_pattern w) 0 s = None.
Proof.
  intros H. rewrite <- (app_nil_r s) at 1.
  rewrite search_labelled_skip.
  - rewrite search_nil, rmatch_unlabelled; [reflexivity|].
    rewrite <- (skipn_all s).
    apply (labelled_before_spec _ _ _ _ H). lia.
  - rewrite app_nil_r. unfold labelled_before in *.
    rewrite seq_S, existsb_app in H.
    now apply orb_false_iff in H as [H _].
Qed.

Lemma strip_label_app (w : jsstring) :
  forall lab t,
    same_label w lab = true -> strip_label true w (lab ++ t) = Some t.
Proof.
  unfold same_label.
  induction w as [|c w IH]; intros lab t H; simpl in *.
  - now destruct lab.
  - destruct lab as [|x lab]; [discriminate|]. simpl.
    destruct (cu_eqb _ _); [|discriminate]. now apply IH.
Qed.

Lemma same_label_length (w : jsstring) :
  forall lab, same_label w lab = true -> List.length lab = List.length w.
Proof.
  unfold same_label.
  induction w as [|c w IH]; intros lab H; simpl in *.
  - now destruct lab.
  - destruct lab as [|x lab]; [discriminate|]. simpl.
    destruct (cu_eqb _ _); [|discriminate]. f_equal. now apply IH.
Qed.

(** The leftmost labelled number is what a labelled pattern matches. *)
Lemma search_labelled (w pre lab d post : jsstring) :
  same_label w lab = true ->
  List.length d = 12 -> all_digits d = true ->
  labelled_before w (pre ++ lab ++ d ++ post) (List.length pre) = false ->
  search true (labelled_pattern w) 0 (pre ++ lab ++ d ++ post)
  = Some (mkMatch (List.length pre) (lab ++ d) (Some d)).
Proof.
  intros Hl Ld Dd Hb. rewrite (search_labelled_skip _ _ _ Hb).
  assert (H : rmatch true (labelled_pattern w)
                     (mkM (List.length pre) (lab ++ d ++ post) None) Some
              = Some (mkM (12 + (List.length w + List.length pre)) post
                          (Some d))).
  { rewrite rmatch_labelled, (strip_label_app _ _ _ Hl).
    rewrite <- Ld at 1. rewrite (drop_digits_app _ _ Dd).
    rewrite <- Ld at 2. now rewrite firstn_length_app. }
  rewrite (search_here _ _ _ _ _ H). cbn [pos cap]. do 2 f_equal.
  replace (12 + (List.length w + List.length pre) - List.length pre)
    with (List.length (lab ++ d))
    by (rewrite length_app, (same_label_length _ _ Hl); lia).
  now rewrite app_assoc, firstn_length_app.
Qed.

Lemma extract_from_labelled (w pre lab d post : jsstring)
      (ps : list pattern) :
  same_label w lab = true ->
  List.length d = 12 -> all_digits d = true ->
  labelled_before w (pre ++ lab ++ d ++ post) (List.length pre) = false ->
  extract_from (mkPattern true (labelled_pattern w) :: ps)
               (pre ++ lab ++ d ++ post)
  = Some d.
Proof.
  intros Hl Ld Dd Hb.
  pose proof (search_labelled w pre lab d post Hl Ld Dd Hb) as Hm.
  rewrite (extract_from_accepts (mkPattern true (labelled_pattern w)) ps _
                                _ Hm).
  - unfold captured. cbn [m1]. destruct d; [discriminate|].
    cbn [truthy]. now rewrite filter_all_digits.
  - unfold captured. cbn [m1]. destruct d; [discriminate|].
    cbn [truthy]. now rewrite count_digits_all.
Qed.

(** C2, as the code has it.  When a text holds the label AADHAAR: (in any
    case) followed by 12 digits, the 12 digits after the leftmost such label
    are returned; when it holds no such label but the label UID: (in any
    case) followed by 12 digits, the 12 digits after the leftmost such label
    are returned.  The text before and after is arbitrary: the labelled
    patterns come first, whatever other digits the text holds. *)
Theorem extract_labelled (pre lab d post : jsstring) :
  List.length d = 12 -> all_digits d = true ->
  (same_label (str "AADHAAR:") lab = true
   /\ labelled_before (str "AADHAAR:") (pre ++ lab ++ d ++ post)
                      (List.length pre) = false)
  \/ (same_label (str "UID:") lab = true
      /\ labelled_before (str "UID:") (pre ++ lab ++ d ++ post)
                         (List.length pre) = false
      /\ labelled_before (str "AADHAAR:") (pre ++ lab ++ d ++ post)
                         (S (List.length (pre ++ lab ++ d ++ post)))
         = false) ->
  extractAadhaarNumber (pre ++ lab ++ d ++ post) = Some d.
Proof.
  intros Ld Dd [[Hl Hb] | (Hl & Hb & Hn)].
  - now apply (extract_from_labelled (str "AADHAAR:")).
  - unfold extractAadhaarNumber, aadhaarPatterns.
    rewrite extract_from_skip.
    + now apply (extract_from_labelled (str "UID:")).
    + now apply (search_unlabelled (str "AADHAAR:")).
Qed.

Lemma extract_labelled_witness :
  extractAadhaarNumber
    (str "999988887777|" ++ str "Aadhaar:" ++ str "123456789012"
         ++ str "|TYPE:MEDICAL|HOSPITAL:APOLLO")
  = Some (str "123456789012").
Proof.
  apply (extract_labelled (str "999988887777|") (str "Aadhaar:")
                          (str "123456789012")
                          (str "|TYPE:MEDICAL|HOSPITAL:APOLLO"));
    [reflexivity | reflexivity | left; split; reflexivity].
Defined.

(** The payload of the demonstration code and a lower-case label. *)
Lemma extract_demo_payload :
  extractAadhaarNumber
    (str "AADHAAR:123456789012|TYPE:MEDICAL|HOSPITAL:APOLLO")
  = Some (str "123456789012")
  /\ extractAadhaarNumber (str "uid:987654321098")
     = Some (str "987654321098").
Proof.
  split; reflexivity.
Qed.

(** C2, as stated, fails: the text below holds UID: followed by exactly 12
    digits, yet the digits returned are those of the AADHAAR: label that
    comes later in the text. *)
Lemma extract_two_labels :
  extractAadhaarNumber
    (str "UID:" ++ str "111111111111" ++ str "|AADHAAR:222222222222")
  = Some (str "222222222222")
  /\ str "222222222222" <> str "111111111111".
Proof.
  split; [reflexivity | discriminate].
Qed.

(** ** The scan session *)

(** *** Objects and worlds *)

Lemma nth_list_update_same (f : QRScanner -> QRScanner) :
  forall l this d,
    this < List.length l ->
    nth this (list_update this f l) d = f (nth this l d).
Proof.
  induction l as [|x l IH]; intros [|this] d H; simpl in *; try lia.
  - reflexivity.
  - apply IH. lia.
Qed.

Lemma length_list_update (f : QRScanner -> QRScanner) :
  forall l this, List.length (list_update this f l) = List.length l.
Proof.
  induction l as [|x l IH]; intros [|this]; simpl; auto.
Qed.

Lemma obj_upd (this : nat) (f : QRScanner -> QRScanner) (w : World) :
  this < List.length (objs w) -> obj this (upd this f w) = f (obj this w).
Proof.
  intros H. unfold obj, upd. simpl. now apply nth_list_update_same.
Qed.

Lemma length_objs_upd (this : nat) (f : QRScanner -> QRScanner)
      (w : World) :
  List.length (objs (upd this f w)) = List.length (objs w).
Proof.
  unfold upd. simpl. apply length_list_update.
Qed.

Lemma same_but_status_refl (w : World) : same_but_status w w.
Proof.
  unfold same_but_status. destruct w as [? ? [] ? ? ? ? ? ? ? ?].
  reflexivity.
Qed.

Lemma same_but_status_updateStatus (message type : jsstring) (w w' : World) :
  same_but_status w w' -> same_but_status w (updateStatus message type w').
Proof.
  unfold same_but_status. intros ->.
  destruct w as [? ? [] ? ? ? ? ? ? ? ?]. reflexivity.
Qed.

(** *** onScanError *)

Lemma onScanError_cases (this : nat) (errorMessage : jsstring) (w : World) :
  onScanError this errorMessage w = w
  \/ onScanError this errorMessage w
     = updateStatus (str "No QR code detected") (str "warning") w.
Proof.
  unfold onScanError.
  destruct (negb (scanning (obj this w))); [now left|].
  destruct (_ || _); [now right | now left].
Qed.

Lemma onScanError_transient (this : nat) (errorMessage : jsstring)
      (w : World) :
  scanning (obj this w) = true -> transient_miss errorMessage = true ->
  onScanError this errorMessage w
  = updateStatus (str "No QR code detected") (str "warning") w.
Proof.
  unfold onScanError, transient_miss. intros -> ->. reflexivity.
Qed.

(** An error callback that comes when the scanner is not scanning is
    dropped. *)
Lemma onScanError_not_scanning (this : nat) (errorMessage : jsstring)
      (w : World) :
  scanning (obj this w) = false -> onScanError this errorMessage w = w.
Proof.
  unfold onScanError. now intros ->.
Qed.

Lemma onScanErrors_same_but_status (this : nat) (msgs : list jsstring) :
  forall w w',
    same_but_status w w' ->
    same_but_status w (onScanErrors this msgs w').
Proof.
  unfold onScanErrors.
  induction msgs as [|m msgs IH]; intros w w' H; simpl; [exact H|].
  apply IH. destruct (onScanError_cases this m w') as [-> | ->];
    [exact H | now apply same_but_status_updateStatus].
Qed.

Lemma updateStatus_twice (message type : jsstring) (w : World) :
  updateStatus message type (updateStatus message type w)
  = updateStatus message type w.
Proof.
  reflexivity.
Qed.

Lemma onScanErrors_transient (this : nat) (msgs : list jsstring) :
  forall w,
    scanning (obj this w) = true ->
    forallb transient_miss msgs = true ->
    onScanErrors this msgs w
    = match msgs with
      | [] => w
      | _ :: _ => updateStatus (str "No QR code detected") (str "warning") w
      end.
Proof.
  unfold onScanErrors.
  induction msgs as [|m msgs IH]; intros w Hs Hm; [reflexivity|].
  simpl in Hm. apply andb_true_iff in Hm as [Hm Hms].
  simpl. rewrite (onScanError_transient _ _ _ Hs Hm).
  rewrite IH; [|exact Hs | exact Hms].
  destruct msgs; [reflexivity | apply updateStatus_twice].
Qed.

(** C6.  Error callbacks delivered while the scanner is scanning, however
    many, leave the session scanning: the world after them differs from the
    world before in the status line at most, so the scanning flag, the
    stored result and raw text and the error display are what they were, and
    nothing is asked of the library.  When the callbacks are decode misses,
    the status line reads "No QR code detected". *)
Theorem transient_miss_stays_scanning (this : nat) (msgs : list jsstring)
        (w : World) :
  scanning (obj this w) = true ->
  let w' := onScanErrors this msgs w in
  same_but_status w w'
  /\ scanning (obj this w') = true
  /\ scannedAadhaar w' = scannedAadhaar w
  /\ scannedQRData w' = scannedQRData w
  /\ scannerError_display (page w') = scannerError_display (page w)
  /\ errorTitle_text (page w') = errorTitle_text (page w)
  /\ errorMessage_text (page w') = errorMessage_text (page w)
  /\ pending w' = pending w
  /\ intervals w' = intervals w
  /\ trace w' = trace w
  /\ (forallb transient_miss msgs = true ->
      scannerStatus_html (page w')
      = match msgs with
        | [] => scannerStatus_html (page w)
        | _ :: _ => no_code_html
        end).
Proof.
  intros Hs w'.
  assert (H : same_but_status w w')
    by apply onScanErrors_same_but_status, same_but_status_refl.
  split; [exact H|]. unfold same_but_status in H.
  split; [now rewrite H|].
  do 8 (split; [now rewrite H|]).
  intros Hm. unfold w'. rewrite (onScanErrors_transient _ _ _ Hs Hm).
  now destruct msgs.
Qed.

Lemma transient_miss_stays_scanning_witness :
  let msgs := [str "QR code parse error, error = NotFoundException";
               str "NotFoundException: No MultiFormat Readers"] in
  let w' := onScanErrors 0 msgs (scanning_world (str "cam0")) in
  scanning (obj 0 w') = true
  /\ scannedAadhaar w' = None
  /\ scannerError_display (page w') = str "none"
  /\ scannerStatus_html (page w') = no_code_html.
Proof.
  intros msgs w'.
  destruct (transient_miss_stays_scanning
              0 msgs (scanning_world (str "cam0")) eq_refl)
    as (_ & H1 & H2 & _ & H3 & _ & _ & _ & _ & _ & H4).
  exact (conj H1 (conj H2 (conj H3 (H4 eq_refl)))).
Defined.

(** *** onScanSuccess on a text without a valid number *)

Lemma onScanSuccess_invalid (this : nat) (decodedText : jsstring)
      (w : World) :
  extractAadhaarNumber decodedText = None ->
  onScanSuccess this decodedText w
  = setTimeout T_status_scanning 2000
      (showError invalid_title invalid_message
         (emit (ConsoleLog (str "QR Code scanned:") decodedText) w)).
Proof.
  unfold onScanSuccess. now intros ->.
Qed.

(** C7, as the code has it.  A frame whose text holds no valid number, in a
    session that is scanning, is reported through the error display (title
    "Invalid QR Code", a message, and the status line in its error form);
    the session stays scanning: no object changes, nothing is asked of the
    library, no timer is cleared.  A timeout of 2000 ms is set, and when it
    runs the status line alone goes back to "Scanning...": the error display
    stays on the page. *)
Theorem invalid_payload_error_display (this : nat) (decodedText : jsstring)
        (w : World) :
  scanning (obj this w) = true ->
  extractAadhaarNumber decodedText = None ->
  let w1 := onScanSuccess this decodedText w in
  let w2 := run_timeout T_status_scanning w1 in
  scannerError_display (page w1) = str "block"
  /\ errorTitle_text (page w1) = invalid_title
  /\ errorMessage_text (page w1) = invalid_message
  /\ scannerStatus_html (page w1) = status_html invalid_title (str "error")
  /\ scanning (obj this w1) = true
  /\ objs w1 = objs w
  /\ intervals w1 = intervals w
  /\ pending w1 = pending w
  /\ scannedAadhaar w1 = scannedAadhaar w
  /\ scannedQRData w1 = scannedQRData w
  /\ trace w1 = trace w ++ [ConsoleLog (str "QR Code scanned:") decodedText]
  /\ timeouts w1
     = timeouts w ++ [(S (next_id w), (2000, T_status_scanning))]
  /\ scannerStatus_html (page w2)
     = status_html (str "Scanning...") (str "scanning")
  /\ scannerError_display (page w2) = str "block"
  /\ errorTitle_text (page w2) = invalid_title
  /\ objs w2 = objs w.
Proof.
  intros Hs He w1 w2. unfold w2, w1.
  rewrite (onScanSuccess_invalid _ _ _ He).
  repeat split; try reflexivity. exact Hs.
Qed.

Lemma invalid_payload_error_display_witness :
  let w1 := onScanSuccess 0 (str "12345") (scanning_world (str "cam0")) in
  scannerError_display (page w1) = str "block"
  /\ errorTitle_text (page w1) = invalid_title
  /\ scanning (obj 0 w1) = true.
Proof.
  intros w1.
  destruct (invalid_payload_error_display
              0 (str "12345") (scanning_world (str "cam0"))
              eq_refl eq_refl)
    as (H1 & H2 & _ & _ & H3 & _).
  exact (conj H1 (conj H2 H3)).
Defined.

(** C7, as stated, fails: the frame "12345", decoded while the scanner is
    scanning, puts the error display on the page, with a title and a
    message, where it had been hidden; it is still there once the timeout
    has run. *)
Lemma invalid_payload_not_status_only :
  let w := scanning_world (str "cam0") in
  let w1 := onScanSuccess 0 (str "12345") w in
  let w2 := fire_timeout 3 w1 in
  extractAadhaarNumber (str "12345") = None
  /\ scannerError_display (page w) = str "none"
  /\ scannerError_display (page w1) = str "block"
  /\ errorTitle_text (page w1) = str "Invalid QR Code"
  /\ errorMessage_text (page w1)
     = str "This QR code does not contain a valid Aadhaar number."
  /\ timeouts w1 = [(3, (2000, T_status_scanning))]
  /\ timeouts w2 = []
  /\ scannerError_display (page w2) = str "block".
Proof.
  repeat split; reflexivity.
Qed.

(** *** Callbacks that come late *)

(** A success callback is not checked against the scanning flag: when the
    scanner is not scanning, a frame with a valid number is still stored and
    shown. *)
Lemma onScanSuccess_not_scanning (this : nat) (decodedText a : jsstring)
      (w : World) :
  extractAadhaarNumber decodedText = Some a ->
  scanning (obj this w) = false ->
  let w' := onScanSuccess this decodedText w in
  scannedAadhaar w' = Some a
  /\ scannedQRData w' = Some decodedText
  /\ scanResult_display (page w') = str "block".
Proof.
  intros He Hs w'. unfold w', onScanSuccess. rewrite He.
  destruct (extract_from_valid _ _ _ He) as [La _].
  destruct a as [|x a]; [discriminate|].
  unfold showScanResult. repeat split; reflexivity.
Qed.

(** C8 fails on the code.  The scanner is closed while it scans; a frame
    decoded after that still stores its number and raw text in the window
    and shows the result, although the scanner is no longer scanning.  The
    error callback, which checks the scanning flag, is dropped. *)
Lemma late_frame_after_close :
  let w1 := closeQRScanner (scanning_world (str "cam0")) in
  let w2 := onScanSuccess 0 (str "AADHAAR:123456789012") w1 in
  scanning (obj 0 w1) = false
  /\ qrScanner w1 = None
  /\ scannedAadhaar w1 = None
  /\ scannedQRData w1 = None
  /\ scanResult_display (page w1) = str "none"
  /\ onScanError 0 (str "NotFoundException") w1 = w1
  /\ scannedAadhaar w2 = Some (str "123456789012")
  /\ scannedQRData w2 = Some (str "AADHAAR:123456789012")
  /\ scanResult_display (page w2) = str "block".
Proof.
  vm_compute. repeat split; reflexivity.
Qed.

(** *** closeQRScanner *)

Lemma qrScanner_closeQRScanner (w : World) :
  qrScanner (closeQRScanner w) = None.
Proof.
  unfold closeQRScanner. destruct (qrScanner w) eqn:Hq; simpl; auto.
Qed.

(** A second call of [closeQRScanner] changes nothing. *)
Lemma closeQRScanner_idempotent (w : World) :
  closeQRScanner (closeQRScanner w) = closeQRScanner w.
Proof.
  unfold closeQRScanner at 1.
  rewrite qrScanner_closeQRScanner.
  unfold closeQRScanner. destruct (qrScanner w); reflexivity.
Qed.

Lemma length_objs_stopScanTimer (this : nat) (w : World) :
  List.length (objs (stopScanTimer this w)) = List.length (objs w).
Proof.
  unfold stopScanTimer. destruct (scanTimer (obj this w)) as [[|id]|];
    try reflexivity.
  now rewrite length_objs_upd.
Qed.

Lemma trace_stopScanTimer (this : nat) (w : World) :
  trace (stopScanTimer this w) = trace w.
Proof.
  unfold stopScanTimer. now destruct (scanTimer (obj this w)) as [[|id]|].
Qed.

Lemma objs_stopCamera (this : nat) (w : World) :
  objs (stopCamera this w) = objs w.
Proof.
  unfold stopCamera, stopCamera_begin. now destruct (_ && _).
Qed.

Lemma trace_stopCamera (this : nat) (w : World) :
  trace (stopCamera this w)
  = if html5QrCode (obj this w) && scanning (obj this w)
    then trace w ++ [LibStop this] else trace w.
Proof.
  unfold stopCamera, stopCamera_begin. now destruct (_ && _).
Qed.

(** What [cleanup] leaves of the scanner, and what it asks of the
    library. *)
Lemma cleanup_spec (this : nat) (w : World) :
  this < List.length (objs w) ->
  scanning (obj this (cleanup this w)) = false
  /\ html5QrCode (obj this (cleanup this w)) = false
  /\ trace (cleanup this w)
     = if html5QrCode (obj this w) && scanning (obj this w)
       then trace w ++ [LibStop this] else trace w.
Proof.
  intros Hlt. unfold cleanup.
  assert (L : this < List.length
                       (objs (stopScanTimer this (stopCamera this w)))).
  { now rewrite length_objs_stopScanTimer, objs_stopCamera. }
  repeat split.
  - rewrite obj_upd; [reflexivity | now rewrite !length_objs_upd].
  - rewrite obj_upd; [|now rewrite !length_objs_upd].
    rewrite obj_upd; [|now rewrite !length_objs_upd].
    rewrite obj_upd; [reflexivity | exact L].
  - change (trace (upd this ?f ?x)) with (trace x).
    change (trace (upd this ?f ?x)) with (trace x).
    change (trace (upd this ?f ?x)) with (trace x).
    now rewrite trace_stopScanTimer, trace_stopCamera.
Qed.

(** What holds of [closeQRScanner] in every world: the global is null
    afterwards, the page is reset, the scanner that the global held is
    reset, the library is asked to stop when that scanner was scanning, and
    a second call changes nothing. *)
Lemma closeQRScanner_twice (w : World) :
  let w1 := closeQRScanner w in
  qrScanner w1 = None
  /\ closeQRScanner w1 = w1
  /\ qrModal_display (page w1) = str "none"
  /\ scanResult_display (page w1) = str "none"
  /\ scannerError_display (page w1) = str "none"
  /\ scannerStatus_html (page w1) = ready_html
  /\ (forall this,
         qrScanner w = Some this -> this < List.length (objs w) ->
         scanning (obj this w1) = false
         /\ html5QrCode (obj this w1) = false
         /\ (html5QrCode (obj this w) && scanning (obj this w) = true ->
             trace w1 = trace w ++ [LibStop this])).
Proof.
  intros w1. unfold w1.
  split; [apply qrScanner_closeQRScanner|].
  split; [apply closeQRScanner_idempotent|].
  do 4 (split; [reflexivity|]).
  intros this Hq Hlt. unfold closeQRScanner. rewrite Hq.
  destruct (cleanup_spec this w Hlt) as (H1 & H2 & H3).
  repeat split; try assumption.
  intros Hc. rewrite Hc in H3. exact H3.
Qed.

(** C5 fails on the code.  [closeQRScanner] is called, twice, while
    [startCamera] waits for the library to start the camera.  Neither call
    raises and the global is null after each, but the library is never asked
    to stop: [cleanup] finds the scanning flag still unset.  When the library
    has started the camera, the scanner that was closed is scanning, with an
    interval timer running, and nothing holds it any more. *)
Lemma close_while_starting :
  let w0 := startCamera_default 0 (ready_world (str "cam0")) in
  let w1 := closeQRScanner w0 in
  let w2 := closeQRScanner w1 in
  let w3 := settle 1 Resolved w2 in
  pending w0 = [(1, [K_startCamera 0])]
  /\ scanning (obj 0 w0) = false
  /\ qrScanner w1 = None
  /\ scanning (obj 0 w1) = false
  /\ w2 = w1
  /\ trace w2 = [LibStart 0 (str "cam0")]
  /\ pending w2 = [(1, [K_startCamera 0])]
  /\ qrScanner w3 = None
  /\ scanning (obj 0 w3) = true
  /\ html5QrCode (obj 0 w3) = false
  /\ scanTimer (obj 0 w3) = Some 2
  /\ intervals w3 = [2]
  /\ trace w3 = [LibStart 0 (str "cam0")].
Proof.
  vm_compute. repeat split; reflexivity.
Qed.

(** *** switchCamera *)

Lemma take_pending_last (id : nat) (ks : list frame) :
  forall l,
    forallb (fun p => fst p <? id) l = true ->
    take_pending id (l ++ [(id, ks)]) = Some (ks, l).
Proof.
  induction l as [|[j ks'] l IH]; intros H; simpl.
  - now rewrite Nat.eqb_refl.
  - simpl in H. apply andb_true_iff in H as [Hj Hl].
    apply Nat.ltb_lt in Hj.
    replace (j =? id) with false by (symmetry; apply Nat.eqb_neq; lia).
    now rewrite (IH Hl).
Qed.

Lemma forallb_weaken (l : list (nat * list frame)) (n m : nat) :
  n < m ->
  forallb (fun p => fst p <=? n) l = true ->
  forallb (fun p => fst p <? m) l = true.
Proof.
  intros Hnm H. rewrite forallb_forall in *. intros p Hp.
  specialize (H p Hp). apply Nat.leb_le in H. apply Nat.ltb_lt. lia.
Qed.

Lemma obj_stopScanTimer (this : nat) (w : World) :
  this < List.length (objs w) ->
  exists t, obj this (stopScanTimer this w) = set_scanTimer t (obj this w).
Proof.
  intros Hlt. unfold stopScanTimer.
  destruct (scanTimer (obj this w)) as [[|id]|] eqn:E.
  - exists (Some 0). now destruct (obj this w); simpl in *; subst.
  - exists None. now rewrite obj_upd.
  - exists None. now destruct (obj this w); simpl in *; subst.
Qed.

Lemma stopped_spec (this : nat) (w : World) :
  this < List.length (objs w) ->
  scanning (obj this (stopped this w)) = false
  /\ html5QrCode (obj this (stopped this w)) = html5QrCode (obj this w)
  /\ List.length (objs (stopped this w)) = List.length (objs w)
  /\ trace (stopped this w) = trace w
  /\ pending (stopped this w) = pending w
  /\ next_id (stopped this w) = next_id w.
Proof.
  intros Hlt. unfold stopped.
  change (obj this (updateStatus ?m ?t ?x)) with (obj this x).
  assert (L : this < List.length (objs (upd this (set_scanning false) w)))
    by now rewrite length_objs_upd.
  destruct (obj_stopScanTimer this _ L) as [t Ht]. rewrite Ht.
  rewrite (obj_upd _ _ _ Hlt).
  repeat split.
  - change (objs (updateStatus ?m ?t ?x)) with (objs x).
    now rewrite length_objs_stopScanTimer, length_objs_upd.
  - change (trace (updateStatus ?m ?t ?x)) with (trace x).
    now rewrite trace_stopScanTimer.
  - unfold stopScanTimer.
    now destruct (scanTimer (obj this _)) as [[|id]|].
  - unfold stopScanTimer.
    now destruct (scanTimer (obj this _)) as [[|id]|].
Qed.

Lemma switchCamera_scanning (this : nat) (newCameraId : jsstring)
      (w : World) :
  truthy newCameraId = true ->
  scanning (obj this w) = true -> html5QrCode (obj this w) = true ->
  switchCamera this newCameraId w
  = await_lib [K_stopCamera this; K_switch_stopped this newCameraId]
              (emit (LibStop this) w).
Proof.
  intros Ht Hs Hh. unfold switchCamera, stopCamera_begin.
  now rewrite Ht, Hs, Hh.
Qed.

(** The frames of [switchCamera] when the stop has resolved: the camera is
    recorded and the library is asked to start it. *)
Lemma resume_switch_stopped (this : nat) (newCameraId : jsstring)
      (w : World) :
  truthy newCameraId = true ->
  this < List.length (objs w) -> html5QrCode (obj this w) = true ->
  resume [K_stopCamera this; K_switch_stopped this newCameraId] Resolved w
  = await_lib [K_startCamera this; K_switch_started this]
      (emit (LibStart this newCameraId)
         (updateStatus (str "Starting camera...") (str "loading")
            (upd this (set_cameraId (Some newCameraId)) (stopped this w)))).
Proof.
  intros Ht Hlt Hh.
  destruct (stopped_spec this w Hlt) as (_ & H2 & H3 & _).
  change (resume [K_stopCamera this; K_switch_stopped this newCameraId]
                 Resolved w)
    with (let (w2, waiting) :=
            startCamera_begin this newCameraId
              (upd this (set_cameraId (Some newCameraId)) (stopped this w)) in
          if waiting
          then await_lib [K_startCamera this; K_switch_started this] w2
          else resume [] Resolved w2).
  unfold startCamera_begin. rewrite Ht. simpl negb. cbv iota.
  change (obj this (updateStatus ?m ?t ?x)) with (obj this x).
  rewrite obj_upd by (rewrite H3; exact Hlt).
  change (html5QrCode (set_cameraId ?c ?o)) with (html5QrCode o).
  now rewrite H2, Hh.
Qed.

(** The promise that was awaited last settles: its frames are resumed. *)
Lemma settle_await (ks : list frame) (r : outcome) (w : World) :
  fresh_ids w = true ->
  settle (next_id (await_lib ks w)) r (await_lib ks w)
  = resume ks r (with_next_id (S (next_id w)) w).
Proof.
  intros Hf. unfold settle.
  change (pending (await_lib ks w))
    with (pending w ++ [(S (next_id w), ks)]).
  change (next_id (await_lib ks w)) with (S (next_id w)).
  rewrite take_pending_last; [reflexivity|].
  apply (forallb_weaken _ (next_id w)); [lia | exact Hf].
Qed.

Lemma stopScanTimer_cases (this : nat) (w : World) :
  stopScanTimer this w = w
  \/ exists l,
       stopScanTimer this w = upd this (set_scanTimer None) (with_intervals l w).
Proof.
  unfold stopScanTimer. destruct (scanTimer (obj this w)) as [[|id]|];
    [now left | right | now left].
  eexists. reflexivity.
Qed.

Ltac obj_norm :=
  unfold obj; simpl objs;
  repeat (rewrite nth_list_update_same
            by (rewrite ?length_list_update; assumption)).

Lemma stopScanTimer_frame (this : nat) (w : World) :
  qrScanner (stopScanTimer this w) = qrScanner w
  /\ page (stopScanTimer this w) = page w
  /\ scannedAadhaar (stopScanTimer this w) = scannedAadhaar w
  /\ scannedQRData (stopScanTimer this w) = scannedQRData w
  /\ timeouts (stopScanTimer this w) = timeouts w
  /\ pending (stopScanTimer this w) = pending w
  /\ next_id (stopScanTimer this w) = next_id w
  /\ clock (stopScanTimer this w) = clock w
  /\ trace (stopScanTimer this w) = trace w.
Proof.
  destruct (stopScanTimer_cases this w) as [-> | [l ->]];
    now repeat split.
Qed.

Lemma obj_stopScanTimer_fields (this : nat) (w : World) :
  this < List.length (objs w) ->
  scanning (obj this (stopScanTimer this w)) = scanning (obj this w)
  /\ html5QrCode (obj this (stopScanTimer this w)) = html5QrCode (obj this w)
  /\ cameraId (obj this (stopScanTimer this w)) = cameraId (obj this w).
Proof.
  intros Hlt. destruct (obj_stopScanTimer this w Hlt) as [t ->].
  now repeat split.
Qed.

(** A scanner that scans, or that holds the library object, is a scanner of
    the store. *)
Lemma scanning_in_range (this : nat) (w : World) :
  scanning (obj this w) = true -> this < List.length (objs w).
Proof.
  intros H. destruct (lt_dec this (List.length (objs w))) as [L | L];
    [exact L|].
  unfold obj in H. rewrite nth_overflow in H by lia. discriminate.
Qed.

Lemma html5QrCode_in_range (this : nat) (w : World) :
  html5QrCode (obj this w) = true -> this < List.length (objs w).
Proof.
  intros H. destruct (lt_dec this (List.length (objs w))) as [L | L];
    [exact L|].
  unfold obj in H. rewrite nth_overflow in H by lia. discriminate.
Qed.






(** ** More on extractAadhaarNumber *)

(** A match that the search returns was found by the matcher at its
    index. *)
Lemma search_some (ic : bool) (r : regex) :
  forall t i m,
    search ic r i t = Some m ->
    exists n st,
      n <= List.length t
      /\ rmatch ic r (mkM (i + n) (skipn n t) None) Some = Some st
      /\ m = mkMatch (i + n) (firstn (pos st - (i + n)) (skipn n t)) (cap st).
Proof.
  induction t as [|x t IH]; intros i m H.
  - rewrite search_nil in H.
    destruct (rmatch ic r (mkM i [] None) Some) as [st|] eqn:E;
      [|discriminate].
    injection H as <-. exists 0, st. rewrite Nat.add_0_r. simpl skipn.
    split; [lia|]. split; [exact E|]. now rewrite firstn_nil.
  - simpl in H.
    destruct (rmatch ic r (mkM i (x :: t) None) Some) as [st|] eqn:E.
    + injection H as <-. exists 0, st. rewrite Nat.add_0_r. simpl skipn.
      split; [simpl; lia|]. split; [exact E | reflexivity].
    + apply IH in H as (n & st & Hn & Hr & ->).
      exists (S n), st. simpl skipn.
      replace (i + S n) with (S i + n) by lia.
      split; [simpl; lia|]. split; [exact Hr | reflexivity].
Qed.

Lemma drop_digits_split (k : nat) :
  forall t t1,
    drop_digits k t = Some t1 ->
    t = firstn k t ++ t1
    /\ List.length (firstn k t) = k
    /\ all_digits (firstn k t) = true.
Proof.
  unfold all_digits.
  induction k as [|k IH]; intros t t1 H; simpl in H.
  - injection H as <-. now repeat split.
  - destruct t as [|x t]; [discriminate|].
    destruct (is_digit x) eqn:Hx; [|discriminate].
    apply IH in H as (E & L & D). simpl. rewrite Hx, L, D, <- E.
    now repeat split.
Qed.

Lemma strip_label_split (ic : bool) (w : jsstring) :
  forall t t1,
    strip_label ic w t = Some t1 ->
    exists lab, t = lab ++ t1 /\ List.length lab = List.length w.
Proof.
  induction w as [|c w IH]; intros t t1 H; simpl in H.
  - injection H as <-. now exists [].
  - destruct t as [|x t]; [discriminate|].
    destruct (cu_eqb _ _); [|discriminate].
    apply IH in H as (lab & -> & L).
    exists (x :: lab). simpl. now rewrite L.
Qed.

Lemma skip_space_split (t t2 : jsstring) (n : nat) :
  skip_space t = (n, t2) ->
  exists sp,
    t = sp ++ t2 /\ List.length sp = n /\ n <= 1 /\ count_digits sp = 0.
Proof.
  unfold skip_space. destruct t as [|x t].
  - intros H. injection H as <- <-. exists []. repeat split; auto.
  - destruct (is_space x) eqn:Hx; intros H; injection H as <- <-.
    + exists [x]. repeat split; auto.
      rewrite count_digits_cons, (is_space_not_digit _ Hx). reflexivity.
    + exists []. repeat split; auto.
Qed.

(** What the grouped pattern matches: 12 digits and at most two white
    spaces. *)
Lemma grouped_at_split (t t' : jsstring) (n : nat) :
  grouped_at t = Some (n, t') ->
  t = firstn n t ++ t'
  /\ count_digits (firstn n t) = 12
  /\ n <= 14.
Proof.
  unfold grouped_at. intros H.
  destruct (drop_digits 4 t) as [t1|] eqn:E1; [|discriminate].
  destruct (skip_space t1) as [n1 t2] eqn:S1.
  destruct (drop_digits 4 t2) as [t3|] eqn:E2; [|discriminate].
  destruct (skip_space t3) as [n2 t4] eqn:S2.
  destruct (drop_digits 4 t4) as [t5|] eqn:E3; [|discriminate].
  injection H as <- <-.
  apply drop_digits_split in E1 as (A1 & L1 & D1).
  apply drop_digits_split in E2 as (A2 & L2 & D2).
  apply drop_digits_split in E3 as (A3 & L3 & D3).
  apply skip_space_split in S1 as (sp1 & B1 & M1 & N1 & C1).
  apply skip_space_split in S2 as (sp2 & B2 & M2 & N2 & C2).
  set (c := firstn 4 t ++ sp1 ++ firstn 4 t2 ++ sp2 ++ firstn 4 t4).
  assert (Et : t = c ++ t5).
  { unfold c. rewrite <- !app_assoc. rewrite <- A3, <- B2, <- A2, <- B1.
    exact A1. }
  assert (Lc : List.length c = n2 + (n1 + 12)).
  { unfold c. rewrite !length_app, L1, L2, L3, M1, M2. lia. }
  assert (Ef : firstn (n2 + (n1 + 12)) t = c).
  { rewrite Et at 1. rewrite <- Lc. apply firstn_length_app. }
  rewrite Ef. repeat split.
  - exact Et.
  - unfold c. rewrite !count_digits_app, C1, C2.
    rewrite (count_digits_all _ D1), (count_digits_all _ D2),
      (count_digits_all _ D3), L1, L2, L3. reflexivity.
  - lia.
Qed.

(** The plain pattern matches at the index 0 only. *)
Lemma rmatch_pat_plain_later (i : nat) (t : jsstring) :
  i <> 0 -> rmatch false (body pat_plain) (mkM i t None) Some = None.
Proof.
  intros H. simpl. destruct i; [congruence | reflexivity].
Qed.

(** What a pattern of [aadhaarPatterns] captures is a piece of the text with
    exactly 12 digits and at most 14 code units. *)
Lemma js_match_capture (p : pattern) (s : jsstring) (m : match_result) :
  In p aadhaarPatterns ->
  js_match s p = Some m ->
  exists pre post,
    s = pre ++ captured m ++ post
    /\ count_digits (captured m) = 12
    /\ List.length (captured m) <= 14.
Proof.
  intros Hp Hm. unfold js_match in Hm.
  apply search_some in Hm as (n & st & Hn & Hr & ->).
  change (0 + n) with n in *.
  assert (Hs : s = firstn n s ++ skipn n s)
    by (symmetry; apply firstn_skipn).
  assert (labelled :
            forall w,
              rmatch true (labelled_pattern w) (mkM n (skipn n s) None) Some
              = Some st ->
              exists pre post c,
                s = pre ++ c ++ post /\ cap st = Some c
                /\ List.length c = 12 /\ all_digits c = true).
  { intros w H. rewrite rmatch_labelled in H.
    destruct (strip_label true w (skipn n s)) as [t1|] eqn:E1;
      [|discriminate].
    destruct (drop_digits 12 t1) as [t2|] eqn:E2; [|discriminate].
    injection H as <-.
    apply strip_label_split in E1 as (lab & E1 & _).
    apply drop_digits_split in E2 as (E2 & L2 & D2).
    exists (firstn n s ++ lab), t2, (firstn 12 t1).
    repeat split; auto.
    rewrite <- app_assoc, <- E2, <- E1. exact Hs. }
  assert (finish :
            forall pre post c,
              s = pre ++ c ++ post -> cap st = Some c ->
              List.length c = 12 -> all_digits c = true ->
              exists pre0 post0,
                s = pre0 ++ captured
                            (mkMatch n (firstn (pos st - n) (skipn n s))
                                     (cap st)) ++ post0
                /\ count_digits
                     (captured (mkMatch n (firstn (pos st - n) (skipn n s))
                                        (cap st))) = 12
                /\ List.length
                     (captured (mkMatch n (firstn (pos st - n) (skipn n s))
                                        (cap st))) <= 14).
  { intros pre post c E C L D. unfold captured. simpl m1. rewrite C.
    destruct c as [|x c]; [discriminate|]. simpl truthy. cbv iota.
    exists pre, post. repeat split; auto.
    - rewrite (count_digits_all _ D). exact L.
    - lia. }
  simpl in Hp. destruct Hp as [<- | [<- | [<- | [<- | []]]]].
  - destruct (labelled _ Hr) as (pre & post & c & E & C & L & D).
    now apply (finish pre post c).
  - destruct (labelled _ Hr) as (pre & post & c & E & C & L & D).
    now apply (finish pre post c).
  - change (ignoreCase pat_grouped) with false in Hr.
    rewrite rmatch_pat_grouped in Hr.
    destruct (grouped_at (skipn n s)) as [[k t']|] eqn:G; [|discriminate].
    injection Hr as <-. simpl pos. simpl cap.
    apply grouped_at_split in G as (E & C & B).
    unfold captured. simpl m1.
    destruct (firstn k (skipn n s)) as [|x c] eqn:F;
      [simpl in C; discriminate|].
    simpl truthy. cbv iota.
    exists (firstn n s), t'. repeat split.
    + rewrite <- E. exact Hs.
    + exact C.
    + rewrite <- F, length_firstn. lia.
  - change (ignoreCase pat_plain) with false in Hr.
    destruct (Nat.eq_dec n 0) as [-> | Hn0];
      [|now rewrite (rmatch_pat_plain_later n _ Hn0) in Hr].
    simpl skipn in *. rewrite rmatch_pat_plain in Hr.
    destruct (drop_digits 12 s) as [[|y u]|] eqn:E2; try discriminate.
    injection Hr as <-.
    apply drop_digits_split in E2 as (E2 & L2 & D2).
    apply (finish [] [] (firstn 12 s)); auto.
Qed.

Lemma extract_from_cons_match (p : pattern) (ps : list pattern)
      (s : jsstring) (m : match_result) :
  In p aadhaarPatterns ->
  js_match s p = Some m ->
  extract_from (p :: ps) s = Some (filter is_digit (captured m)).
Proof.
  intros Hp Hm.
  destruct (js_match_capture p s m Hp Hm) as (pre & post & _ & C & _).
  now apply extract_from_accepts.
Qed.

Lemma extract_from_some (s a : jsstring) :
  forall ps,
    extract_from ps s = Some a ->
    exists p m,
      In p ps /\ js_match s p = Some m
      /\ a = replace_nondigits (captured m).
Proof.
  induction ps as [|p ps IH]; simpl; [discriminate|].
  destruct (js_match s p) as [m|] eqn:Hm.
  - destruct (_ && _).
    + intros H. injection H as <-. exists p, m. auto.
    + intros H. apply IH in H as (q & m' & Hq & Hm' & ->).
      exists q, m'. auto.
  - intros H. apply IH in H as (q & m' & Hq & Hm' & ->).
    exists q, m'. auto.
Qed.

(** X1.  The number that [extractAadhaarNumber] returns is read off one
    piece of the text: a piece of at most 14 code units whose digits, in
    their order, are the number. *)
Theorem extract_digits_of_a_piece (qrText a : jsstring) :
  extractAadhaarNumber qrText = Some a ->
  exists pre c post,
    qrText = pre ++ c ++ post
    /\ a = filter is_digit c
    /\ List.length c <= 14.
Proof.
  intros H. apply extract_from_some in H as (p & m & Hp & Hm & ->).
  destruct (js_match_capture p qrText m Hp Hm) as (pre & post & E & _ & L).
  exists pre, (captured m), post. rewrite replace_nondigits_eq. auto.
Qed.

Lemma extract_digits_of_a_piece_witness :
  exists pre c post,
    str "id 1234 5678 9012 (card)" = pre ++ c ++ post
    /\ str "123456789012" = filter is_digit c
    /\ List.length c <= 14.
Proof.
  apply (extract_digits_of_a_piece (str "id 1234 5678 9012 (card)")).
  reflexivity.
Defined.

(** X2.  The first pattern of the list that matches the text decides the
    result: the digits of what it captures are returned, the check of the
    length never turns a match down. *)
Theorem extract_first_match (qrText : jsstring) (ps1 ps2 : list pattern)
        (p : pattern) (m : match_result) :
  aadhaarPatterns = ps1 ++ p :: ps2 ->
  (forall q, In q ps1 -> js_match qrText q = None) ->
  js_match qrText p = Some m ->
  extractAadhaarNumber qrText = Some (filter is_digit (captured m)).
Proof.
  intros E Hn Hm. unfold extractAadhaarNumber.
  assert (Hp : In p aadhaarPatterns)
    by (rewrite E; apply in_or_app; right; now left).
  rewrite E. clear E.
  induction ps1 as [|q ps1 IH]; simpl app.
  - now apply extract_from_cons_match.
  - rewrite extract_from_skip by (apply Hn; now left).
    apply IH. intros q' Hq'. apply Hn. now right.
Qed.

Lemma extract_first_match_witness :
  extractAadhaarNumber (str "uid:987654321098")
  = Some (filter is_digit
            (captured (mkMatch 0 (str "uid:987654321098")
                               (Some (str "987654321098"))))).
Proof.
  apply (extract_first_match (str "uid:987654321098")
                             [pat_aadhaar] [pat_grouped; pat_plain] pat_uid).
  - reflexivity.
  - intros q [<- | []]. reflexivity.
  - reflexivity.
Defined.

Lemma drop_digits_add (a b : nat) :
  forall t,
    drop_digits (a + b) t
    = match drop_digits a t with
      | Some t1 => drop_digits b t1
      | None => None
      end.
Proof.
  induction a as [|a IH]; intros t; simpl; [reflexivity|].
  destruct t as [|x t]; [reflexivity|].
  destruct (is_digit x); [apply IH | reflexivity].
Qed.

Lemma skip_space_digit_head (k : nat) (t u : jsstring) :
  drop_digits (S k) t = Some u -> skip_space t = (0, t).
Proof.
  simpl. destruct t as [|x t]; [discriminate|].
  destruct (is_digit x) eqn:Hx; [|discriminate]. intros _.
  unfold skip_space. destruct (is_space x) eqn:Hs; [|reflexivity].
  apply is_space_not_digit in Hs. congruence.
Qed.

(** Twelve digits in a row are three groups of four. *)
Lemma grouped_at_plain (t t' : jsstring) :
  drop_digits 12 t = Some t' -> grouped_at t = Some (12, t').
Proof.
  intros H. change 12 with (4 + (4 + 4)) in H.
  rewrite drop_digits_add in H.
  destruct (drop_digits 4 t) as [t1|] eqn:E1; [|discriminate].
  rewrite drop_digits_add in H.
  destruct (drop_digits 4 t1) as [t2|] eqn:E2; [|discriminate].
  unfold grouped_at. rewrite E1.
  rewrite (skip_space_digit_head _ _ _ E2), E2.
  rewrite (skip_space_digit_head _ _ _ H), H. reflexivity.
Qed.

(** Where the plain pattern matches, the grouped pattern matches too. *)
Lemma js_match_plain_none (s : jsstring) :
  js_match s pat_grouped = None -> js_match s pat_plain = None.
Proof.
  intros Hg. destruct (js_match s pat_plain) as [m|] eqn:Hp;
    [exfalso | reflexivity].
  unfold js_match in Hp.
  apply search_some in Hp as (n & st & _ & Hr & _).
  change (0 + n) with n in Hr.
  change (ignoreCase pat_plain) with false in Hr.
  destruct (Nat.eq_dec n 0) as [-> | Hn0];
    [|now rewrite (rmatch_pat_plain_later n _ Hn0) in Hr].
  simpl skipn in Hr. rewrite rmatch_pat_plain in Hr.
  destruct (drop_digits 12 s) as [t'|] eqn:E; [|discriminate].
  apply grouped_at_plain in E.
  assert (H : rmatch false (body pat_grouped) (mkM 0 s None) Some
              = Some (mkM (12 + 0) t' (Some (firstn 12 s))))
    by now rewrite rmatch_pat_grouped, E.
  unfold js_match in Hg. change (ignoreCase pat_grouped) with false in Hg.
  rewrite (search_here _ _ _ _ _ H) in Hg. discriminate.
Qed.

(** X3.  The fourth pattern, /^(\d{12})$/, never decides the result: the
    list without it extracts the same number from every text. *)
Theorem plain_pattern_redundant (qrText : jsstring) :
  extract_from [pat_aadhaar; pat_uid; pat_grouped] qrText
  = extractAadhaarNumber qrText.
Proof.
  unfold extractAadhaarNumber, aadhaarPatterns.
  destruct (js_match qrText pat_aadhaar) as [m|] eqn:H1.
  { rewrite !(extract_from_cons_match _ _ _ _ (or_introl eq_refl) H1).
    reflexivity. }
  rewrite !(extract_from_skip _ _ _ H1).
  destruct (js_match qrText pat_uid) as [m|] eqn:H2.
  { rewrite !(extract_from_cons_match _ _ _ _
                (or_intror (or_introl eq_refl)) H2).
    reflexivity. }
  rewrite !(extract_from_skip _ _ _ H2).
  destruct (js_match qrText pat_grouped) as [m|] eqn:H3.
  { rewrite !(extract_from_cons_match _ _ _ _
                (or_intror (or_intror (or_introl eq_refl))) H3).
    reflexivity. }
  rewrite !(extract_from_skip _ _ _ H3).
  rewrite (extract_from_skip _ _ _ (js_match_plain_none _ H3)).
  reflexivity.
Qed.

(** A string of exactly 12 digits is extracted as it is. *)
Lemma extract_plain_12 (s : jsstring) :
  List.length s = 12 -> all_digits s = true ->
  extractAadhaarNumber s = Some s.
Proof.
  intros L D.
  destruct (all_digits_split 4 s D) as [D1 D23].
  destruct (all_digits_split 4 (skipn 4 s) D23) as [D2 D3].
  remember (firstn 4 s) as g1 eqn:E1.
  remember (firstn 4 (skipn 4 s)) as g2 eqn:E2.
  remember (skipn 4 (skipn 4 s)) as g3 eqn:E3.
  assert (E : g1 ++ g2 ++ g3 = s)
    by (subst g1 g2 g3; now rewrite !firstn_skipn).
  assert (L1 : List.length g1 = 4)
    by (subst g1; rewrite length_firstn; lia).
  assert (L2 : List.length g2 = 4)
    by (subst g2; rewrite length_firstn, length_skipn; lia).
  assert (L3 : List.length g3 = 4)
    by (subst g3; rewrite !length_skipn; lia).
  pose proof (extract_groups g1 g2 g3 [] [] L1 L2 L3 D1 D2 D3
                             eq_refl eq_refl (le_S _ _ (le_n 0))
                             (le_S _ _ (le_n 0))) as H.
  simpl app in H. now rewrite E in H.
Qed.

(** X4.  A number that [extractAadhaarNumber] has returned is extracted
    from itself: extracting twice gives what extracting once gives. *)
Theorem extract_idempotent (qrText a : jsstring) :
  extractAadhaarNumber qrText = Some a ->
  extractAadhaarNumber a = Some a.
Proof.
  intros H. apply extract_from_valid in H as [L D].
  now apply extract_plain_12.
Qed.

Lemma extract_idempotent_witness :
  extractAadhaarNumber (str "123456789012") = Some (str "123456789012").
Proof.
  apply (extract_idempotent
           (str "AADHAAR:123456789012|TYPE:MEDICAL|HOSPITAL:APOLLO")).
  reflexivity.
Defined.

(** X5.  The gap between two groups of four digits may be any single white
    space character of the class \s, a tab, a line feed or a no-break space
    as well as a space: the 12 digits of the groups are returned. *)
Theorem extract_groups_any_white_space (g1 g2 g3 : jsstring)
        (w1 w2 : code_unit) :
  List.length g1 = 4 -> List.length g2 = 4 -> List.length g3 = 4 ->
  all_digits g1 = true -> all_digits g2 = true -> all_digits g3 = true ->
  is_space w1 = true -> is_space w2 = true ->
  extractAadhaarNumber (g1 ++ [w1] ++ g2 ++ [w2] ++ g3)
  = Some (g1 ++ g2 ++ g3).
Proof.
  intros L1 L2 L3 D1 D2 D3 S1 S2.
  apply extract_groups; auto; unfold all_spaces; simpl;
    rewrite ?S1, ?S2; auto.
Qed.

Lemma extract_groups_any_white_space_witness :
  extractAadhaarNumber
    (str "1234" ++ [9%N] ++ str "5678" ++ [160%N] ++ str "9012")
  = Some (str "1234" ++ str "5678" ++ str "9012").
Proof.
  apply (extract_groups_any_white_space
           (str "1234") (str "5678") (str "9012") 9%N 160%N);
    reflexivity.
Defined.

(** ** More on the scan session *)

(** X6.  A stop that the library rejects changes nothing but the console:
    the scanner is still scanning, its timer still runs, and the page is as
    it was. *)
Theorem stopCamera_rejected (this : nat) (e : jsstring) (w : World) :
  scanning (obj this w) = true ->
  html5QrCode (obj this w) = true ->
  fresh_ids w = true ->
  let w1 := stopCamera this w in
  let w2 := settle (next_id w1) (Rejected e) w1 in
  objs w2 = objs w
  /\ scanning (obj this w2) = true
  /\ page w2 = page w
  /\ intervals w2 = intervals w
  /\ pending w2 = pending w
  /\ trace w2
     = trace w ++ [LibStop this;
                   ConsoleError (str "Failed to stop camera:") e].
Proof.
  intros Hs Hh Hf w1 w2.
  assert (E1 : w1 = await_lib [K_stopCamera this] (emit (LibStop this) w)).
  { unfold w1, stopCamera, stopCamera_begin. now rewrite Hs, Hh. }
  assert (E2 : w2 = emit (ConsoleError (str "Failed to stop camera:") e)
                      (with_next_id (S (next_id w)) (emit (LibStop this) w))).
  { unfold w2. rewrite E1. now rewrite settle_await. }
  rewrite E2. repeat split; try reflexivity.
  - exact Hs.
  - simpl. now rewrite <- app_assoc.
Qed.

Lemma stopCamera_rejected_witness :
  let w := scanning_world (str "cam0") in
  let w1 := stopCamera 0 w in
  let w2 := settle (next_id w1) (Rejected (str "busy")) w1 in
  scanning (obj 0 w2) = true /\ intervals w2 = intervals w.
Proof.
  intros w w1 w2.
  destruct (stopCamera_rejected 0 (str "busy") (scanning_world (str "cam0"))
                                eq_refl eq_refl eq_refl)
    as (_ & H1 & _ & H2 & _).
  exact (conj H1 H2).
Defined.

(** X7.  [startCamera] with a camera id that is not empty, on a scanner
    that holds the library object: the library is asked to start that camera
    and the status line reads "Starting camera...".  When the start
    resolves, the scanner is scanning, a fresh interval timer runs for it
    from the current time, and the status line reads "Scanning...".  When
    the start is rejected, no object changes and the rejection is shown in
    the error display under "Camera Start Failed".  On a scanner that holds
    no library object, nothing is asked of the library and nothing is
    awaited: "Camera Start Failed" is shown at once, in the error display
    and in the status line, and no object changes. *)
Theorem startCamera_outcomes (this : nat) (cam e : jsstring) (w : World) :
  truthy cam = true ->
  fresh_ids w = true ->
  let w1 := startCamera this cam w in
  let w2 := settle (next_id w1) Resolved w1 in
  let w3 := settle (next_id w1) (Rejected e) w1 in
  (html5QrCode (obj this w) = true ->
   (trace w1 = trace w ++ [LibStart this cam]
    /\ objs w1 = objs w
    /\ scannerStatus_html (page w1)
       = status_html (str "Starting camera...") (str "loading"))
   /\ (scanning (obj this w2) = true
       /\ scanTimer (obj this w2) = Some (S (S (next_id w)))
       /\ scanStartTime (obj this w2) = Some (clock w)
       /\ intervals w2 = intervals w ++ [S (S (next_id w))]
       /\ scannerStatus_html (page w2)
          = status_html (str "Scanning...") (str "scanning")
       /\ scannerError_display (page w2) = scannerError_display (page w))
   /\ (objs w3 = objs w
       /\ intervals w3 = intervals w
       /\ scannerError_display (page w3) = str "block"
       /\ errorTitle_text (page w3) = str "Camera Start Failed"
       /\ errorMessage_text (page w3) = e
       /\ trace w3 = trace w1))
  /\ (html5QrCode (obj this w) = false ->
      trace w1 = trace w
      /\ pending w1 = pending w
      /\ objs w1 = objs w
      /\ intervals w1 = intervals w
      /\ scannerError_display (page w1) = str "block"
      /\ errorTitle_text (page w1) = str "Camera Start Failed"
      /\ scannerStatus_html (page w1)
         = status_html (str "Camera Start Failed") (str "error")).
Proof.
  intros Ht Hf w1 w2 w3. split.
  - intros Hh.
    pose proof (html5QrCode_in_range this w Hh) as Hlt.
    assert (E1 : w1 = await_lib [K_startCamera this]
                        (emit (LibStart this cam)
                           (updateStatus (str "Starting camera...")
                                         (str "loading") w))).
    { unfold w1, startCamera, startCamera_begin. rewrite Ht. simpl negb.
      cbv iota.
      change (obj this (updateStatus ?m ?t ?x)) with (obj this x).
      now rewrite Hh. }
    split; [|split].
    + rewrite E1. now repeat split.
    + unfold w2. rewrite E1, settle_await by exact Hf.
      simpl resume. repeat split; try reflexivity.
      * unfold startScanTimer. obj_norm. reflexivity.
      * unfold startScanTimer. obj_norm. reflexivity.
      * unfold startScanTimer. obj_norm. reflexivity.
    + unfold w3. rewrite E1, settle_await by exact Hf.
      simpl resume. now repeat split.
  - intros Hh.
    assert (E1 : w1 = showError (str "Camera Start Failed") null_call_message
                        (updateStatus (str "Starting camera...")
                                      (str "loading") w)).
    { unfold w1, startCamera, startCamera_begin. rewrite Ht. simpl negb.
      cbv iota.
      change (obj this (updateStatus ?m ?t ?x)) with (obj this x).
      now rewrite Hh. }
    rewrite E1. now repeat split.
Qed.

Lemma startCamera_outcomes_witness :
  let w := ready_world (str "cam0") in
  let w1 := startCamera 0 (str "cam0") w in
  let w2 := settle (next_id w1) Resolved w1 in
  let w3 := settle (next_id w1) (Rejected (str "NotAllowedError")) w1 in
  let wn := upd 0 (set_html5QrCode false) w in
  let wn1 := startCamera 0 (str "cam0") wn in
  (scanning (obj 0 w2) = true
   /\ intervals w2 = [2]
   /\ errorMessage_text (page w3) = str "NotAllowedError"
   /\ objs w3 = objs w)
  /\ (trace wn1 = trace wn
      /\ errorTitle_text (page wn1) = str "Camera Start Failed").
Proof.
  intros w w1 w2 w3 wn wn1.
  destruct (proj1 (startCamera_outcomes 0 (str "cam0")
                     (str "NotAllowedError") (ready_world (str "cam0"))
                     eq_refl eq_refl) eq_refl)
    as (_ & (H1 & _ & _ & H2 & _) & (H3 & _ & _ & _ & H4 & _)).
  destruct (proj2 (startCamera_outcomes 0 (str "cam0")
                     (str "NotAllowedError")
                     (upd 0 (set_html5QrCode false)
                          (ready_world (str "cam0")))
                     eq_refl eq_refl) eq_refl)
    as (N1 & _ & _ & _ & _ & N2 & _).
  exact (conj (conj H1 (conj H2 (conj H4 H3))) (conj N1 N2)).
Defined.

(** X8.  A frame with a valid number, decoded while the scanner scans: the
    number and the raw text are stored in the window and shown, the status
    line reads "QR Code found!", and the scanning flag is still set when the
    handler returns.  If the scanner holds the library object, the library
    is asked once to stop; when that stop resolves, the scanner is not
    scanning any more, the stored result is kept, and the status line reads
    "Camera stopped" in place of "QR Code found!".  If the scanner holds no
    library object, no stop is asked and nothing is awaited: only the frame
    is logged, and the scanner stays scanning. *)
Theorem valid_frame_found (this : nat) (decodedText a : jsstring)
        (w : World) :
  extractAadhaarNumber decodedText = Some a ->
  scanning (obj this w) = true ->
  fresh_ids w = true ->
  let w1 := onScanSuccess this decodedText w in
  let w2 := settle (next_id w1) Resolved w1 in
  (scannedAadhaar w1 = Some a
   /\ scannedQRData w1 = Some decodedText
   /\ scanResult_display (page w1) = str "block"
   /\ scannedData_text (page w1) = str "Aadhaar: " ++ a
   /\ scannerStatus_html (page w1)
      = status_html (str "QR Code found!") (str "success")
   /\ scanning (obj this w1) = true)
  /\ (html5QrCode (obj this w) = true ->
      trace w1 = trace w ++ [ConsoleLog (str "QR Code scanned:") decodedText;
                             LibStop this]
      /\ scanning (obj this w2) = false
      /\ scannedAadhaar w2 = Some a
      /\ scannedQRData w2 = Some decodedText
      /\ scanResult_display (page w2) = str "block"
      /\ scannerStatus_html (page w2)
         = status_html (str "Camera stopped") (str "info")
      /\ trace w2 = trace w1)
  /\ (html5QrCode (obj this w) = false ->
      trace w1 = trace w ++ [ConsoleLog (str "QR Code scanned:") decodedText]
      /\ pending w1 = pending w).
Proof.
  intros He Hs Hf w1 w2.
  pose proof (scanning_in_range this w Hs) as Hlt.
  destruct (extract_from_valid _ _ _ He) as [La _].
  destruct a as [|x a]; [discriminate|].
  set (wl := emit (ConsoleLog (str "QR Code scanned:") decodedText) w).
  assert (E0 : w1 = showScanResult (x :: a) decodedText
                      (stopScanTimer this (stopCamera this wl))).
  { unfold w1, onScanSuccess. now rewrite He. }
  split; [|split].
  - assert (Lc : this < List.length (objs (stopCamera this wl)))
      by (rewrite objs_stopCamera; exact Hlt).
    destruct (obj_stopScanTimer_fields this _ Lc) as (G1 & _).
    rewrite E0. repeat split; try reflexivity.
    change (obj this (showScanResult ?n ?d ?y)) with (obj this y).
    rewrite G1. unfold obj. rewrite objs_stopCamera. exact Hs.
  - intros Hh.
    set (w0 := emit (LibStop this) wl).
    assert (E1 : w1 = showScanResult (x :: a) decodedText
                        (stopScanTimer this
                           (await_lib [K_stopCamera this] w0))).
    { rewrite E0. unfold stopCamera, stopCamera_begin.
      change (obj this wl) with (obj this w).
      now rewrite Hs, Hh. }
    set (wa := await_lib [K_stopCamera this] w0) in *.
    destruct (stopScanTimer_frame this wa)
      as (_ & F2 & _ & _ & _ & F6 & F7 & _ & F9).
    split.
    { rewrite E1.
      change (trace (showScanResult ?n ?d ?y)) with (trace y).
      rewrite F9. unfold wa, w0, wl. simpl. now rewrite <- app_assoc. }
    assert (N1 : next_id w1 = S (next_id w)) by (rewrite E1; exact F7).
    assert (P1 : pending w1
                 = pending w ++ [(S (next_id w), [K_stopCamera this])])
      by (rewrite E1; exact F6).
    assert (E2 : w2 = stopped this (with_pending (pending w) w1)).
    { unfold w2, settle. rewrite N1, P1.
      rewrite take_pending_last; [reflexivity|].
      apply (forallb_weaken _ (next_id w)); [lia | exact Hf]. }
    assert (L1 : this < List.length (objs (with_pending (pending w) w1))).
    { rewrite E1.
      change (objs (with_pending ?l (showScanResult ?n ?d ?y)))
        with (objs y).
      rewrite length_objs_stopScanTimer. exact Hlt. }
    destruct (stopped_spec this _ L1) as (S1 & _ & _ & S4 & _).
    rewrite E2. split; [exact S1|].
    unfold stopped.
    destruct (stopScanTimer_frame
                this (upd this (set_scanning false)
                          (with_pending (pending w) w1)))
      as (_ & T2 & T3 & T4 & _ & _ & _ & _ & T9).
    repeat split.
    + change (scannedAadhaar (updateStatus ?m ?t ?y))
        with (scannedAadhaar y).
      rewrite T3, E1. reflexivity.
    + change (scannedQRData (updateStatus ?m ?t ?y)) with (scannedQRData y).
      rewrite T4, E1. reflexivity.
    + change (scanResult_display (page (updateStatus ?m ?t ?y)))
        with (scanResult_display (page y)).
      rewrite T2, E1. reflexivity.
    + change (trace (updateStatus ?m ?t ?y)) with (trace y).
      rewrite T9. reflexivity.
  - intros Hh.
    assert (E1 : w1 = showScanResult (x :: a) decodedText
                        (stopScanTimer this wl)).
    { rewrite E0. unfold stopCamera, stopCamera_begin.
      change (obj this wl) with (obj this w).
      now rewrite Hs, Hh. }
    destruct (stopScanTimer_frame this wl)
      as (_ & _ & _ & _ & _ & F6 & _ & _ & F9).
    rewrite E1. split.
    + change (trace (showScanResult ?n ?d ?y)) with (trace y).
      now rewrite F9.
    + change (pending (showScanResult ?n ?d ?y)) with (pending y).
      now rewrite F6.
Qed.

Lemma valid_frame_found_witness :
  let w := scanning_world (str "cam0") in
  let w1 := onScanSuccess 0 (str "1234 5678 9012") w in
  let w2 := settle (next_id w1) Resolved w1 in
  let wn := upd 0 (set_html5QrCode false) w in
  let wn1 := onScanSuccess 0 (str "1234 5678 9012") wn in
  (scannedAadhaar w1 = Some (str "123456789012")
   /\ scanning (obj 0 w1) = true
   /\ scanning (obj 0 w2) = false
   /\ scannerStatus_html (page w2)
      = status_html (str "Camera stopped") (str "info"))
  /\ (scanning (obj 0 wn1) = true /\ pending wn1 = pending wn).
Proof.
  intros w w1 w2 wn wn1.
  destruct (valid_frame_found 0 (str "1234 5678 9012") (str "123456789012")
                              (scanning_world (str "cam0"))
                              eq_refl eq_refl eq_refl)
    as ((H1 & _ & _ & _ & _ & H2) & H & _).
  destruct (H eq_refl) as (_ & H3 & _ & _ & _ & H4 & _).
  destruct (valid_frame_found 0 (str "1234 5678 9012") (str "123456789012")
                              (upd 0 (set_html5QrCode false)
                                   (scanning_world (str "cam0")))
                              eq_refl eq_refl eq_refl)
    as ((_ & _ & _ & _ & _ & N1) & _ & N).
  destruct (N eq_refl) as (_ & N2).
  exact (conj (conj H1 (conj H2 (conj H3 H4))) (conj N1 N2)).
Defined.

(** X9.  [closeQRScanner] keeps the last result: the number and the raw
    text stored in the window, and the text of #scannedData, are what they
    were before the call, whatever the state of the scanner. *)
Theorem closeQRScanner_keeps_result (w : World) :
  scannedAadhaar (closeQRScanner w) = scannedAadhaar w
  /\ scannedQRData (closeQRScanner w) = scannedQRData w
  /\ scannedData_text (page (closeQRScanner w)) = scannedData_text (page w).
Proof.
  unfold closeQRScanner. destruct (qrScanner w) as [this|];
    [|now repeat split].
  unfold cleanup.
  destruct (stopScanTimer_frame this (stopCamera this w))
    as (_ & F2 & F3 & F4 & _).
  assert (C : page (stopCamera this w) = page w
              /\ scannedAadhaar (stopCamera this w) = scannedAadhaar w
              /\ scannedQRData (stopCamera this w) = scannedQRData w).
  { unfold stopCamera, stopCamera_begin.
    destruct (_ && _); now repeat split. }
  destruct C as (C1 & C2 & C3).
  repeat split.
  - change (scannedAadhaar (stopScanTimer this (stopCamera this w))
            = scannedAadhaar w).
    now rewrite F3.
  - change (scannedQRData (stopScanTimer this (stopCamera this w))
            = scannedQRData w).
    now rewrite F4.
  - change (scannedData_text (page (stopScanTimer this (stopCamera this w)))
            = scannedData_text (page w)).
    now rewrite F2, C1.
Qed.

Lemma intervals_stopScanTimer (this : nat) (w : World) :
  intervals (stopScanTimer this w)
  = match scanTimer (obj this w) with
    | Some (S k) => filter (fun j => negb (j =? S k)) (intervals w)
    | _ => intervals w
    end.
Proof.
  unfold stopScanTimer. now destruct (scanTimer (obj this w)) as [[|k]|].
Qed.

Lemma filter_fresh_id (l : list nat) (n : nat) :
  forallb (fun j => j <=? n) l = true ->
  filter (fun j => negb (j =? S n)) (l ++ [S n]) = l.
Proof.
  intros H. rewrite filter_app. simpl. rewrite Nat.eqb_refl. simpl.
  rewrite app_nil_r. induction l as [|j l IH]; [reflexivity|].
  simpl in H. apply andb_true_iff in H as [Hj Hl].
  apply Nat.leb_le in Hj. simpl.
  replace (j =? S n) with false by (symmetry; apply Nat.eqb_neq; lia).
  simpl. now rewrite IH.
Qed.

Lemma scan_timer_round_trip_aux (this : nat) (w : World) :
  this < List.length (objs w) ->
  forallb (fun j => j <=? next_id w) (intervals w) = true ->
  scanTimer (obj this (startScanTimer this w)) = Some (S (next_id w))
  /\ intervals (startScanTimer this w) = intervals w ++ [S (next_id w)]
  /\ scanTimer (obj this (stopScanTimer this (startScanTimer this w))) = None
  /\ intervals (stopScanTimer this (startScanTimer this w)) = intervals w.
Proof.
  intros Hlt Hf.
  assert (T1 : scanTimer (obj this (startScanTimer this w))
               = Some (S (next_id w))).
  { unfold startScanTimer. obj_norm. reflexivity. }
  assert (L1 : this < List.length (objs (startScanTimer this w))).
  { unfold startScanTimer. simpl objs. now rewrite !length_list_update. }
  split; [exact T1|]. split; [reflexivity|]. split.
  - unfold stopScanTimer. rewrite T1. now rewrite obj_upd.
  - rewrite intervals_stopScanTimer, T1. now apply filter_fresh_id.
Qed.

(** X10.  [stopScanTimer] undoes [startScanTimer]: the interval that was
    started is cleared, the intervals that ran before are the ones that run
    after, and the scanner holds no timer. *)
Theorem scan_timer_round_trip (this : nat) (w : World) :
  this < List.length (objs w) ->
  forallb (fun j => j <=? next_id w) (intervals w) = true ->
  let w1 := startScanTimer this w in
  let w2 := stopScanTimer this w1 in
  scanTimer (obj this w1) = Some (S (next_id w))
  /\ intervals w1 = intervals w ++ [S (next_id w)]
  /\ scanTimer (obj this w2) = None
  /\ intervals w2 = intervals w.
Proof.
  intros Hlt Hf w1 w2. now apply scan_timer_round_trip_aux.
Qed.

Lemma scan_timer_round_trip_witness :
  let w := ready_world (str "cam0") in
  let w2 := stopScanTimer 0 (startScanTimer 0 w) in
  scanTimer (obj 0 w2) = None /\ intervals w2 = intervals w.
Proof.
  intros w w2.
  destruct (scan_timer_round_trip 0 (ready_world (str "cam0"))
                                  (le_n 1) eq_refl)
    as (_ & _ & H1 & H2).
  exact (conj H1 H2).
Defined.

(** X11.  [startScanTimer] does not clear a timer that runs: started twice
    in a row, it leaves the first interval running, and [stopScanTimer]
    clears the second only, after which the scanner holds no timer while
    the first interval still runs. *)
Theorem second_timer_leaks_first (this : nat) (w : World) :
  this < List.length (objs w) ->
  forallb (fun j => j <=? next_id w) (intervals w) = true ->
  let w2 := startScanTimer this (startScanTimer this w) in
  let w3 := stopScanTimer this w2 in
  intervals w2 = intervals w ++ [S (next_id w); S (S (next_id w))]
  /\ scanTimer (obj this w2) = Some (S (S (next_id w)))
  /\ scanTimer (obj this w3) = None
  /\ intervals w3 = intervals w ++ [S (next_id w)]
  /\ stopScanTimer this w3 = w3.
Proof.
  intros Hlt Hf w2 w3.
  set (w1 := startScanTimer this w).
  assert (L1 : this < List.length (objs w1)).
  { unfold w1, startScanTimer. simpl objs.
    now rewrite !length_list_update. }
  assert (F1 : forallb (fun j => j <=? next_id w1) (intervals w1) = true).
  { unfold w1, startScanTimer. simpl. rewrite forallb_app. simpl.
    rewrite Nat.leb_refl. simpl. rewrite andb_true_r.
    rewrite forallb_forall in *. intros j Hj.
    specialize (Hf j Hj). apply Nat.leb_le in Hf. apply Nat.leb_le. lia. }
  destruct (scan_timer_round_trip_aux this w1 L1 F1) as (T2 & I2 & T3 & I3).
  assert (N1 : next_id w1 = S (next_id w)) by reflexivity.
  assert (I1 : intervals w1 = intervals w ++ [S (next_id w)]) by reflexivity.
  rewrite N1 in T2, I2. rewrite I1 in I2, I3.
  split; [|split; [exact T2 | split; [exact T3 | split; [exact I3|]]]].
  - transitivity ((intervals w ++ [S (next_id w)]) ++ [S (S (next_id w))]);
      [exact I2 | now rewrite <- app_assoc].
  - unfold w3, w2. fold w1. unfold stopScanTimer at 1. now rewrite T3.
Qed.

Lemma second_timer_leaks_first_witness :
  let w := ready_world (str "cam0") in
  let w3 := stopScanTimer 0 (startScanTimer 0 (startScanTimer 0 w)) in
  scanTimer (obj 0 w3) = None /\ intervals w3 = [1].
Proof.
  intros w w3.
  destruct (second_timer_leaks_first 0 (ready_world (str "cam0"))
                                     (le_n 1) eq_refl)
    as (_ & _ & H1 & H2 & _).
  exact (conj H1 H2).
Defined.

(** X12.  A switch that goes well: the scanner scans, the stop resolves and
    the start of the new camera resolves.  The library is asked to stop and
    then to start the new camera, the scanner is scanning with the new
    camera as its camera, the timer that ran is cleared and a fresh one
    runs, no promise is left pending, and the status line reads
    "Scanning...". *)
Theorem switchCamera_succeeds (this : nat) (newCameraId : jsstring)
        (w : World) :
  truthy newCameraId = true ->
  this < List.length (objs w) ->
  scanning (obj this w) = true ->
  html5QrCode (obj this w) = true ->
  fresh_ids w = true ->
  let w1 := switchCamera this newCameraId w in
  let w2 := settle (next_id w1) Resolved w1 in
  let w3 := settle (next_id w2) Resolved w2 in
  scanning (obj this w3) = true
  /\ cameraId (obj this w3) = Some newCameraId
  /\ scanTimer (obj this w3) = Some (S (S (S (next_id w))))
  /\ intervals w3
     = intervals (stopScanTimer this w) ++ [S (S (S (next_id w)))]
  /\ pending w3 = pending w
  /\ trace w3 = trace w ++ [LibStop this; LibStart this newCameraId]
  /\ scannerStatus_html (page w3)
     = status_html (str "Scanning...") (str "scanning")
  /\ scannerError_display (page w3) = scannerError_display (page w).
Proof.
  intros Ht Hlt Hs Hh Hf w1 w2 w3.
  set (wa := with_next_id (S (next_id w)) (emit (LibStop this) w)).
  assert (La : this < List.length (objs wa)) by exact Hlt.
  assert (Ha : html5QrCode (obj this wa) = true) by exact Hh.
  assert (E2 : w2 = await_lib [K_startCamera this; K_switch_started this]
                      (emit (LibStart this newCameraId)
                         (updateStatus (str "Starting camera...")
                                       (str "loading")
                            (upd this (set_cameraId (Some newCameraId))
                                 (stopped this wa))))).
  { unfold w2, w1.
    rewrite (switchCamera_scanning _ _ _ Ht Hs Hh).
    rewrite settle_await by exact Hf.
    now apply resume_switch_stopped. }
  destruct (stopped_spec this wa La) as (_ & _ & S3 & S4 & S5 & S6).
  assert (SI : intervals (stopped this wa) = intervals (stopScanTimer this w)).
  { unfold stopped.
    change (intervals (updateStatus ?m ?t ?y)) with (intervals y).
    rewrite !intervals_stopScanTimer.
    rewrite obj_upd by exact La. reflexivity. }
  assert (SP : scannerError_display (page (stopped this wa))
               = scannerError_display (page w)).
  { unfold stopped.
    change (scannerError_display (page (updateStatus ?m ?t ?y)))
      with (scannerError_display (page y)).
    destruct (stopScanTimer_frame this (upd this (set_scanning false) wa))
      as (_ & F2 & _).
    now rewrite F2. }
  remember (stopped this wa) as ws eqn:Ews.
  assert (Ls : this < List.length (objs ws)) by (rewrite S3; exact La).
  set (wb := emit (LibStart this newCameraId)
               (updateStatus (str "Starting camera...") (str "loading")
                  (upd this (set_cameraId (Some newCameraId)) ws))) in *.
  assert (Fb : fresh_ids wb = true).
  { unfold fresh_ids.
    change (pending wb) with (pending ws).
    change (next_id wb) with (next_id ws).
    rewrite S5, S6. unfold wa. simpl.
    unfold fresh_ids in Hf. rewrite forallb_forall in *.
    intros q Hq. specialize (Hf q Hq).
    apply Nat.leb_le in Hf. apply Nat.leb_le. lia. }
  assert (E3 : w3 = updateStatus (str "Scanning...") (str "scanning")
                      (startScanTimer this
                         (upd this (set_scanning true)
                              (with_next_id (S (next_id wb)) wb)))).
  { unfold w3. rewrite E2. now rewrite settle_await by exact Fb. }
  assert (Nb : next_id wb = S (next_id w))
    by (change (next_id wb) with (next_id ws); rewrite S6; reflexivity).
  rewrite E3. unfold startScanTimer.
  split; [obj_norm; reflexivity|].
  split; [obj_norm; reflexivity|].
  split; [rewrite <- Nb; obj_norm; reflexivity|].
  split; [rewrite <- Nb, <- SI; reflexivity|].
  split; [transitivity (pending ws); [reflexivity | now rewrite S5]|].
  split.
  { transitivity (trace ws ++ [LibStart this newCameraId]);
      [reflexivity|].
    rewrite S4. unfold wa. simpl. now rewrite <- app_assoc. }
  split; [reflexivity|].
  transitivity (scannerError_display (page ws)); [reflexivity | exact SP].
Qed.

Lemma switchCamera_succeeds_witness :
  let w := scanning_world (str "cam0") in
  let w1 := switchCamera 0 (str "cam1") w in
  let w2 := settle (next_id w1) Resolved w1 in
  let w3 := settle (next_id w2) Resolved w2 in
  scanning (obj 0 w3) = true
  /\ cameraId (obj 0 w3) = Some (str "cam1")
  /\ intervals w3 = [5].
Proof.
  intros w w1 w2 w3.
  destruct (switchCamera_succeeds 0 (str "cam1")
                                  (scanning_world (str "cam0"))
                                  eq_refl (le_n 1) eq_refl eq_refl eq_refl)
    as (H1 & H2 & _ & H3 & _).
  exact (conj H1 (conj H2 H3)).
Defined.

(** ** The timer display *)

Lemma jseqb_eq (a : jsstring) :
  forall b, jseqb a b = true -> a = b.
Proof.
  induction a as [|x a IH]; intros [|y b] H; simpl in H;
    try discriminate; [reflexivity|].
  apply andb_true_iff in H as [Hx Hab].
  apply N.eqb_eq in Hx. subst y. f_equal. now apply IH.
Qed.

Lemma jseqb_refl (a : jsstring) : jseqb a a = true.
Proof.
  induction a as [|x a IH]; simpl; [reflexivity|].
  unfold cu_eqb. now rewrite N.eqb_refl, IH.
Qed.

(** A number below 100, printed and padded to two characters. *)
Lemma pad_two_digits (n : Z) :
  (0 <= n < 100)%Z -> padStart 2 48%N (js_String n) = two_digits n.
Proof.
  intros Hn.
  assert (H : forallb
                (fun k => jseqb (padStart 2 48%N (js_String (Z.of_nat k)))
                                (two_digits (Z.of_nat k)))
                (seq 0 100) = true) by (vm_compute; reflexivity).
  rewrite forallb_forall in H.
  specialize (H (Z.to_nat n)).
  rewrite Z2Nat.id in H by lia.
  apply jseqb_eq, H, in_seq. lia.
Qed.

(** X13.  The timer shows minutes and seconds as mm:ss: while less than
    100 minutes have gone by since the scan started, the text is the two
    digits of the whole minutes, a colon, and the two digits of the seconds
    left, each padded with a zero. *)
Theorem timer_display_mm_ss (now scanStartTime : Z) :
  (scanStartTime <= now)%Z ->
  (now - scanStartTime < 6000000)%Z ->
  let seconds := ((now - scanStartTime) / 1000)%Z in
  timer_display now scanStartTime
  = two_digits (seconds / 60) ++ str ":" ++ two_digits (seconds mod 60).
Proof.
  intros H1 H2 seconds. unfold timer_display. fold seconds.
  assert (Hs : (0 <= seconds < 6000)%Z).
  { unfold seconds. split.
    - apply Z.div_pos; lia.
    - apply Z.div_lt_upper_bound; lia. }
  assert (Hm : (0 <= seconds / 60 < 100)%Z).
  { split.
    - apply Z.div_pos; lia.
    - apply Z.div_lt_upper_bound; lia. }
  assert (Hr : Z.rem seconds 60 = (seconds mod 60)%Z)
    by (apply Z.rem_mod_nonneg; lia).
  rewrite Hr.
  rewrite (pad_two_digits _ Hm).
  assert (Hd : (0 <= seconds mod 60 < 60)%Z)
    by (apply Z.mod_pos_bound; lia).
  rewrite (pad_two_digits (seconds mod 60)%Z); [reflexivity | lia].
Qed.

Lemma timer_display_mm_ss_witness :
  timer_display 1700000125999 1700000000000 = str "02:05".
Proof.
  apply (timer_display_mm_ss 1700000125999 1700000000000); lia.
Defined.

(** ** The list of cameras *)

Lemma map_fst_camera_options (devices : list Device) :
  forall index,
    List.map fst (camera_options devices index)
    = List.map device_id devices.
Proof.
  induction devices as [|d ds IH]; intros index; simpl;
    [reflexivity | now rewrite IH].
Qed.

Lemma choose_camera_in (first : Device) (rest : list Device) :
  In (choose_camera first (first :: rest))
     (List.map device_id (first :: rest)).
Proof.
  unfold choose_camera.
  destruct (find is_back (first :: rest)) as [b|] eqn:F.
  - apply find_some in F as [Hin _]. now apply in_map.
  - now left.
Qed.

Lemma starts_with_app (n t : jsstring) : starts_with n (n ++ t) = true.
Proof.
  induction n as [|x n IH]; simpl; [reflexivity|].
  unfold cu_eqb. now rewrite N.eqb_refl, IH.
Qed.

Lemma includes_app_r (a t n : jsstring) :
  includes t n = true -> includes (a ++ t) n = true.
Proof.
  intros H. induction a as [|x a IH]; [exact H|].
  simpl. rewrite IH. apply orb_true_r.
Qed.

Lemma includes_middle (a n t : jsstring) : includes (a ++ n ++ t) n = true.
Proof.
  apply includes_app_r. destruct (n ++ t) eqn:E; simpl;
    rewrite <- E, starts_with_app; reflexivity.
Qed.

Lemma toLowerCase_app (a b : jsstring) :
  toLowerCase (a ++ b) = toLowerCase a ++ toLowerCase b.
Proof.
  unfold toLowerCase. apply flat_map_app.
Qed.

(** A code unit that matches an upper-case letter up to case has that
    letter, in lower case, as its lower-case form. *)
Lemma lower_cu_letter (c x : code_unit) :
  (65 <= c <= 90)%N ->
  cu_eqb (canonicalize true c) (canonicalize true x) = true ->
  lower_cu x = [(c + 32)%N].
Proof.
  unfold cu_eqb. intros Hc H. apply N.eqb_eq in H.
  assert (Hx : x = c \/ x = (c + 32)%N).
  { destruct (canonicalize_cases true c) as [[E1 _] | [E1 ?]];
      destruct (canonicalize_cases true x) as [[E2 _] | [E2 ?]];
      rewrite E1, E2 in H; lia. }
  unfold lower_cu. destruct Hx as [-> | ->].
  - replace ((65 <=? c)%N && (c <=? 90)%N) with true; [reflexivity|].
    symmetry. apply andb_true_iff. split; apply N.leb_le; lia.
  - replace ((65 <=? c + 32)%N && (c + 32 <=? 90)%N) with false.
    + replace (c + 32 =? 304)%N with false
        by (symmetry; apply N.eqb_neq; lia).
      replace (c + 32 =? 8490)%N with false
        by (symmetry; apply N.eqb_neq; lia).
      reflexivity.
    + symmetry. apply andb_false_iff. right. apply N.leb_gt. lia.
Qed.

(** A word that equals a word of upper-case letters up to case becomes that
    word, in lower case, under [toLowerCase]. *)
Lemma toLowerCase_same_label (w : jsstring) :
  Forall (fun c => (65 <= c <= 90)%N) w ->
  forall lab,
    same_label w lab = true ->
    toLowerCase lab = List.map (fun c => (c + 32)%N) w.
Proof.
  unfold same_label. intros Hw.
  induction Hw as [|c w Hc Hw IH]; intros lab H; simpl in H.
  - now destruct lab.
  - destruct lab as [|x lab]; [discriminate|].
    destruct (cu_eqb _ _) eqn:E; [|discriminate].
    simpl. unfold toLowerCase in *. simpl.
    rewrite (lower_cu_letter c x Hc E). simpl. f_equal. now apply IH.
Qed.

(** A label that holds "back", in any mix of cases, is the label of a back
    camera. *)
Lemma is_back_any_case (d : Device) (pre lab post : jsstring) :
  device_label d = pre ++ lab ++ post ->
  same_label (str "BACK") lab = true ->
  is_back d = true.
Proof.
  intros E H. unfold is_back. rewrite E, !toLowerCase_app.
  assert (Hw : Forall (fun c => (65 <= c <= 90)%N) (str "BACK"))
    by (apply Forall_forall; intros c Hc; simpl in Hc; lia).
  rewrite (toLowerCase_same_label (str "BACK") Hw lab H).
  apply includes_middle.
Qed.

Lemma find_first_back (front rest : list Device) (d : Device) :
  no_back front = true -> is_back d = true ->
  find is_back (front ++ d :: rest) = Some d.
Proof.
  unfold no_back. intros Hf Hd.
  induction front as [|x front IH]; simpl.
  - now rewrite Hd.
  - simpl in Hf. apply andb_true_iff in Hf as [Hx Hf].
    apply negb_true_iff in Hx. rewrite Hx. now apply IH.
Qed.

(** X14.  The camera chosen from the list: the first device whose label
    holds "back", whatever the case of its letters, is chosen before the
    devices listed ahead of it; when no label holds it, the first device of
    the list is chosen. *)
Theorem choose_camera_prefers_back :
  (forall first devices front d rest pre lab post,
      devices = front ++ d :: rest ->
      no_back front = true ->
      device_label d = pre ++ lab ++ post ->
      same_label (str "BACK") lab = true ->
      choose_camera first devices = device_id d)
  /\ (forall first devices,
         no_back devices = true ->
         choose_camera first devices = device_id first).
Proof.
  split.
  - intros first devices front d rest pre lab post -> Hf El Hl.
    unfold choose_camera.
    now rewrite (find_first_back front rest d Hf
                                 (is_back_any_case d pre lab post El Hl)).
  - intros first devices Hn. unfold choose_camera, no_back in *.
    destruct (find is_back devices) as [b|] eqn:F; [|reflexivity].
    apply find_some in F as [Hin Hb].
    rewrite forallb_forall in Hn. specialize (Hn b Hin).
    now rewrite Hb in Hn.
Qed.

Lemma choose_camera_prefers_back_witness :
  let front := mkDevice (str "id-front") (str "Front Camera") in
  let rear := mkDevice (str "id-rear") (str "Rear (BaCk) Camera") in
  choose_camera front [front; rear] = str "id-rear".
Proof.
  intros front rear.
  apply (proj1 choose_camera_prefers_back front [front; rear] [front] rear []
               (str "Rear (") (str "BaCk") (str ") Camera"));
    reflexivity.
Defined.

(** What [loadCameras] does with a list of devices that is not empty, when
    the scanner holds the library object and the id chosen is not empty. *)
Lemma loadCameras_spec (this : nat) (first : Device) (rest : list Device)
      (sel : Select) (w : World) :
  this < List.length (objs w) ->
  html5QrCode (obj this w) = true ->
  truthy (choose_camera first (first :: rest)) = true ->
  loadCameras this (Cameras (Some (first :: rest))) sel w
  = (mkSelect (camera_options (first :: rest) 0)
              (choose_camera first (first :: rest)),
     await_lib [K_startCamera this]
       (emit (LibStart this (choose_camera first (first :: rest)))
          (updateStatus (str "Starting camera...") (str "loading")
             (upd this
                  (set_cameraId (Some (choose_camera first (first :: rest))))
                  w)))).
Proof.
  intros Hlt Hh Ht.
  set (cam := choose_camera first (first :: rest)) in *.
  unfold loadCameras. fold cam. f_equal.
  - unfold set_select_value. cbn [sel_options].
    replace (existsb (fun o => jseqb (fst o) cam)
                     (camera_options (first :: rest) 0)) with true;
      [reflexivity|].
    symmetry. apply existsb_exists.
    pose proof (choose_camera_in first rest) as Hin. fold cam in Hin.
    rewrite <- (map_fst_camera_options (first :: rest) 0) in Hin.
    apply in_map_iff in Hin as (o & Eo & Ho).
    exists o. split; [exact Ho|]. rewrite Eo. apply jseqb_refl.
  - unfold startCamera_default. rewrite obj_upd by exact Hlt.
    cbn [cameraId set_cameraId].
    unfold startCamera, startCamera_begin. rewrite Ht. simpl negb. cbv iota.
    change (obj this (updateStatus ?m ?t ?x)) with (obj this x).
    rewrite obj_upd by exact Hlt.
    change (html5QrCode (set_cameraId ?c ?o)) with (html5QrCode o).
    now rewrite Hh.
Qed.

(** X15.  With a list of cameras that is not empty, [loadCameras] starts a
    camera of the list: the id chosen is the id of a listed device, it is
    the value of an option of the select and the value the select shows, it
    is recorded as the camera of the scanner, and it is the camera that the
    library is asked to start. *)
Theorem loadCameras_starts_listed_camera (this : nat) (first : Device)
        (rest : list Device) (sel : Select) (w : World) :
  this < List.length (objs w) ->
  html5QrCode (obj this w) = true ->
  truthy (choose_camera first (first :: rest)) = true ->
  let cam := choose_camera first (first :: rest) in
  let sel1 := fst (loadCameras this (Cameras (Some (first :: rest))) sel w) in
  let w1 := snd (loadCameras this (Cameras (Some (first :: rest))) sel w) in
  In cam (List.map device_id (first :: rest))
  /\ List.map fst (sel_options sel1) = List.map device_id (first :: rest)
  /\ sel_value sel1 = cam
  /\ cameraId (obj this w1) = Some cam
  /\ trace w1 = trace w ++ [LibStart this cam]
  /\ pending w1 = pending w ++ [(S (next_id w), [K_startCamera this])].
Proof.
  intros Hlt Hh Ht cam sel1 w1. unfold sel1, w1.
  rewrite (loadCameras_spec this first rest sel w Hlt Hh Ht). fold cam.
  split; [apply choose_camera_in|].
  split; [apply map_fst_camera_options|].
  split; [reflexivity|].
  split; [|split; reflexivity].
  cbn [snd].
  change (obj this (await_lib ?k (emit ?e (updateStatus ?m ?t ?x))))
    with (obj this x).
  now rewrite obj_upd.
Qed.

Lemma loadCameras_starts_listed_camera_witness :
  let front := mkDevice (str "id-front") (str "Front Camera") in
  let rear := mkDevice (str "id-rear") (str "Back Camera") in
  let r := loadCameras 0 (Cameras (Some [front; rear])) (mkSelect [] [])
                       (ready_world (str "old")) in
  sel_value (fst r) = str "id-rear"
  /\ cameraId (obj 0 (snd r)) = Some (str "id-rear")
  /\ trace (snd r) = [LibStart 0 (str "id-rear")].
Proof.
  intros front rear r.
  destruct (loadCameras_starts_listed_camera
              0 front [rear] (mkSelect [] []) (ready_world (str "old"))
              (le_n 1) eq_refl eq_refl)
    as (_ & _ & H1 & H2 & H3 & _).
  exact (conj H1 (conj H2 H3)).
Defined.

(** X16.  [initialize] reports success although no camera was found: when
    [getCameras()] is rejected or lists no device, [loadCameras] shows
    "Camera Error" in the error display and starts nothing, and
    [initialize] then writes "Ready to scan" in the status line and returns
    true. *)
Theorem initialize_true_without_camera (this : nat) (r : cameras_outcome)
        (sel : Select) (w : World) :
  no_camera r = true ->
  let res := initialize_resume this r sel w in
  let w1 := snd (fst res) in
  snd res = true
  /\ scannerError_display (page w1) = str "block"
  /\ errorTitle_text (page w1) = str "Camera Error"
  /\ errorMessage_text (page w1) = camera_error_message
  /\ scannerStatus_html (page w1)
     = status_html (str "Ready to scan") (str "info")
  /\ objs w1 = objs w
  /\ pending w1 = pending w
  /\ trace w1 = trace w.
Proof.
  intros Hr res w1. unfold w1, res, initialize_resume, loadCameras.
  destruct r as [[[|d ds]|]|e]; try discriminate; now repeat split.
Qed.

Lemma initialize_true_without_camera_witness :
  let res := initialize_resume 0 (CamerasRejected (str "NotAllowedError"))
                               (mkSelect [] []) (ready_world (str "cam0")) in
  snd res = true
  /\ errorTitle_text (page (snd (fst res))) = str "Camera Error".
Proof.
  intros res.
  destruct (initialize_true_without_camera
              0 (CamerasRejected (str "NotAllowedError")) (mkSelect [] [])
              (ready_world (str "cam0")) eq_refl)
    as (H1 & _ & H2 & _).
  exact (conj H1 H2).
Defined.

(** X17.  An uploaded image with a valid number is stored and shown and
    nothing else: the number and the raw text are in the window, the result
    is displayed, and the scanners, the timers, the pending promises and
    the calls to the library are what they were, so a camera that scans
    goes on scanning. *)
Theorem upload_keeps_camera (this : nat) (data a : jsstring) (w : World) :
  qrScanner w = Some this ->
  extractAadhaarNumber data = Some a ->
  exists w1,
    onImageLoaded (Some data) w = Some w1
    /\ scannedAadhaar w1 = Some a
    /\ scannedQRData w1 = Some data
    /\ scanResult_display (page w1) = str "block"
    /\ scannedData_text (page w1) = str "Aadhaar: " ++ a
    /\ objs w1 = objs w
    /\ intervals w1 = intervals w
    /\ pending w1 = pending w
    /\ trace w1 = trace w.
Proof.
  intros Hq He. unfold onImageLoaded. rewrite Hq, He.
  destruct (extract_from_valid _ _ _ He) as [La _].
  destruct a as [|x a]; [discriminate|].
  eexists. split; [reflexivity|]. now repeat split.
Qed.

Lemma upload_keeps_camera_witness :
  exists w1,
    onImageLoaded (Some (str "UID:987654321098"))
                  (scanning_world (str "cam0")) = Some w1
    /\ scannedAadhaar w1 = Some (str "987654321098")
    /\ scanning (obj 0 w1) = true.
Proof.
  destruct (upload_keeps_camera 0 (str "UID:987654321098")
                                (str "987654321098")
                                (scanning_world (str "cam0"))
                                eq_refl eq_refl)
    as (w1 & H1 & H2 & _ & _ & _ & H3 & _).
  exists w1. split; [exact H1|]. split; [exact H2|].
  unfold obj. rewrite H3. reflexivity.
Defined.

(** X18.  An uploaded image without a valid number, no code or a code that
    holds none, is reported in the error display and changes nothing else:
    the result stored before, and its display, are what they were. *)
Theorem upload_failure_keeps_result (this : nat) (code : option jsstring)
        (w : World) :
  qrScanner w = Some this ->
  no_valid_code code = true ->
  exists w1,
    onImageLoaded code w = Some w1
    /\ scannerError_display (page w1) = str "block"
    /\ errorTitle_text (page w1)
       = match code with
         | Some _ => str "Invalid QR Code"
         | None => str "No QR Code Found"
         end
    /\ scannedAadhaar w1 = scannedAadhaar w
    /\ scannedQRData w1 = scannedQRData w
    /\ scanResult_display (page w1) = scanResult_display (page w)
    /\ scannedData_text (page w1) = scannedData_text (page w)
    /\ objs w1 = objs w
    /\ trace w1 = trace w.
Proof.
  intros Hq Hc. unfold onImageLoaded. rewrite Hq.
  destruct code as [data|]; simpl in Hc.
  - destruct (extractAadhaarNumber data) as [a|]; [discriminate|].
    eexists. split; [reflexivity|]. now repeat split.
  - eexists. split; [reflexivity|]. now repeat split.
Qed.

Lemma upload_failure_keeps_result_witness :
  let w := onScanSuccess 0 (str "1234 5678 9012")
                         (scanning_world (str "cam0")) in
  exists w1,
    onImageLoaded (Some (str "hello")) w = Some w1
    /\ errorTitle_text (page w1) = str "Invalid QR Code"
    /\ scannedAadhaar w1 = Some (str "123456789012")
    /\ scanResult_display (page w1) = str "block".
Proof.
  intros w.
  destruct (upload_failure_keeps_result 0 (Some (str "hello")) w
                                        eq_refl eq_refl)
    as (w1 & H1 & _ & H2 & H3 & _ & H4 & _).
  exists w1. split; [exact H1|]. split; [exact H2|].
  split; [rewrite H3; reflexivity | rewrite H4; reflexivity].
Defined.

(** X19.  [retryCamera] on a scanner that scans hides the error display and
    has the chosen camera started again without a stop: the library is
    asked to start, never to stop, and the scanning flag stays set. *)
Theorem retryCamera_never_stops (this : nat) (first : Device)
        (rest : list Device) (sel : Select) (w : World) :
  qrScanner w = Some this ->
  this < List.length (objs w) ->
  html5QrCode (obj this w) = true ->
  scanning (obj this w) = true ->
  truthy (choose_camera first (first :: rest)) = true ->
  let cam := choose_camera first (first :: rest) in
  let w1 := snd (retryCamera (Cameras (Some (first :: rest))) sel w) in
  scannerError_display (page w1) = str "none"
  /\ scanning (obj this w1) = true
  /\ cameraId (obj this w1) = Some cam
  /\ trace w1 = trace w ++ [LibStart this cam].
Proof.
  intros Hq Hlt Hh Hs Ht cam w1. unfold w1, retryCamera. rewrite Hq.
  rewrite (loadCameras_spec this first rest sel (hideError w) Hlt Hh Ht).
  fold cam. cbn [snd].
  split; [reflexivity|].
  change (obj this (await_lib ?k (emit ?e (updateStatus ?m ?t ?x))))
    with (obj this x).
  rewrite obj_upd by exact Hlt.
  split; [exact Hs|]. split; reflexivity.
Qed.

Lemma retryCamera_never_stops_witness :
  let cam := mkDevice (str "cam0") (str "Back Camera") in
  let w1 := snd (retryCamera (Cameras (Some [cam])) (mkSelect [] [])
                             (scanning_world (str "cam0"))) in
  scanning (obj 0 w1) = true
  /\ trace w1 = [LibStart 0 (str "cam0"); LibStart 0 (str "cam0")].
Proof.
  intros cam w1.
  destruct (retryCamera_never_stops
              0 cam [] (mkSelect [] []) (scanning_world (str "cam0"))
              eq_refl (le_n 1) eq_refl eq_refl eq_refl)
    as (_ & H1 & _ & H2).
  exact (conj H1 H2).
Defined.
